(** * go-thumbnail: the thumbnail generation pipeline of [thumbnail.go]

    A shallow embedding of package [thumbnail] and the properties of its
    naming, resize-mode, retry and error-collection logic. [thumbnail.go]
    holds two revisions of the package; the embedding follows the later one
    ([CreateThumbnail], [Generate], [Save], [saveInternal],
    [SaveWithDimension], [SaveRaw] and the loaders from a file), and has the
    [GetProcessedImage] of the earlier one next to it.

    Modelling conventions:
    - Go [int] values are only compared with [0] and handed on, so they are
      [Z]; [float64] is Rocq's primitive binary64 [float].
    - Go strings are byte strings: [string].
    - A [*Image] is a nullable location in a heap of [Image] records, so that
      the aliasing [img := i] of [Generate] is the aliasing of the model.
    - The codec ([imgconv]) and the operating system are a [Platform]: an
      arbitrary world with arbitrary answers, which may also panic in the
      goroutine of the call. A fault in a goroutine of the codec's own (the
      resize scans the rows of a picture in worker goroutines) is not a
      panic of the caller: no deferred call runs and the process ends. No
      run of the model describes that; what is proved is about the runs in
      which the process goes on.
    - Every call into the platform is recorded in a trace.
    - [log.Printf] only writes to the standard logger and is left out. *)

From Stdlib Require Import ZArith NArith String Ascii List Bool Lia.
From Stdlib Require Import Floats.PrimFloat.
From stdpp Require Import base tactics option list strings.

Local Open Scope string_scope.
Local Open Scope list_scope.
Local Open Scope Z_scope.

(** ** [path/filepath] on a Unix target

    The functions of Go's standard library that the package calls, for the
    separator ['/'] and no volume names. *)
Module filepath.

Definition Separator : ascii := "/"%char.

Definition IsPathSeparator (c : ascii) : bool := Ascii.eqb c Separator.

(** [strings.Split(s, "/")]: always at least one element. *)
Fixpoint split (s : string) : list string :=
  match s with
  | EmptyString => [EmptyString]
  | String c rest =>
      if IsPathSeparator c then EmptyString :: split rest
      else match split rest with
           | hd :: tl => String c hd :: tl
           | [] => [String c EmptyString]
           end
  end.

(** [strings.Join(elems, "/")]. *)
Fixpoint join_sep (elems : list string) : string :=
  match elems with
  | [] => ""
  | [e] => e
  | e :: rest => e +:+ "/" +:+ join_sep rest
  end.

(** One step of the scan of [Clean]. [out] is the output buffer as a stack
    of path elements, last written first. An empty element and ["."] are
    skipped; [".."] removes the last real element if there is one, is
    appended to a leading run of [".."] of an unrooted path, and is dropped
    at the root. *)
Definition clean_elem (rooted : bool) (out : list string) (e : string)
  : list string :=
  if (e =? "")%string then out
  else if (e =? ".")%string then out
  else if (e =? "..")%string then
    match out with
    | top :: below => if (top =? "..")%string then e :: out else below
    | [] => if rooted then [] else [e]
    end
  else e :: out.

Definition rooted (path : string) : bool :=
  match path with
  | String c _ => IsPathSeparator c
  | EmptyString => false
  end.

(** [filepath.Clean]. *)
Definition Clean (path : string) : string :=
  if (path =? "")%string then "."
  else
    let out := fold_left (clean_elem (rooted path)) (split path) [] in
    let body := join_sep (rev out) in
    let res := if rooted path then "/" +:+ body else body in
    if (res =? "")%string then "." else res.

(** Strip trailing separators. *)
Fixpoint trim_trailing (s : string) : string :=
  match s with
  | EmptyString => EmptyString
  | String c rest =>
      let rest' := trim_trailing rest in
      if (rest' =? "")%string && IsPathSeparator c then EmptyString
      else String c rest'
  end.

(** [filepath.Base]: the last element of the path; ["."] for the empty
    path and ["/"] for a path of separators only. *)
Definition Base (path : string) : string :=
  if (path =? "")%string then "."
  else
    let p := trim_trailing path in
    let e := List.last (split p) "" in
    if (e =? "")%string then "/" else e.

(** [path[:i+1]] for [i] the index of the last separator, [""] if none. *)
Fixpoint through_last_separator (s : string) : string :=
  match s with
  | EmptyString => EmptyString
  | String c rest =>
      let rest' := through_last_separator rest in
      if (rest' =? "")%string
      then (if IsPathSeparator c then String c EmptyString else EmptyString)
      else String c rest'
  end.

(** [filepath.Dir]. *)
Definition Dir (path : string) : string :=
  Clean (through_last_separator path).

(** [filepath.Join]: empty elements before the first non-empty one are
    ignored, the rest is joined with the separator and cleaned; the result
    is empty when every element is. *)
Fixpoint Join (elem : list string) : string :=
  match elem with
  | [] => ""
  | e :: rest =>
      if (e =? "")%string then Join rest else Clean (join_sep (e :: rest))
  end.

End filepath.

(** ** Go values *)

(** [syscall.Errno] values a file operation fails with. *)
Inductive Errno := ENOENT | EACCES | ENOTDIR | EEXIST | ENOSPC.

(** The pointee of a [*fs.PathError]. *)
Module PathError.
Record t := mk { Op : string; Path : string; Err : Errno }.
End PathError.

(** The dynamic values of the interface [error] that reach the package, and
    the values a recovered panic carries. [fmt.Errorf] is kept symbolic: the
    format string and its one argument. *)
Inductive error : Type :=
| errors_New (text : string)
| PathErrorPtr (p : option PathError.t)
| Foreign (text : string)
| Errorf_error (format : string) (e : error)
| Errorf_panic (format : string) (r : panic_value)
with panic_value : Type :=
| TypeAssertionError (e : error)
| NilDereference
| Fault (text : string)
| OutOfFuel.

(** A Go [error] result: [None] is [nil]. *)
Definition error_result := option error.

Definition ErrInvalidMimeType : error := errors_New "invalid mimetype".
Definition ErrInvalidImageData : error := errors_New "invalid image data ".
Definition ErrInvalidNoTransformProvided : error :=
  errors_New "no transform data was provided ".
Definition ErrInvalidScaler : error := errors_New "invalid scaler".

Definition DefaultThumbnailPercentage : float := 0x1.999999999999ap-2%float.

(** The result of running a piece of Go code: it returns or it panics. *)
Inductive outcome (A : Type) : Type :=
| Ret (a : A)
| Panic (r : panic_value).
Arguments Ret {A} a.
Arguments Panic {A} r.

(** [x > y] on [float64]: false when either side is a NaN. *)
Definition float_gt (x y : float) : bool := PrimFloat.ltb y x.

Definition len (s : string) : nat := String.length s.

Module ImageSize.
Record t := mk { Width : Z; Height : Z }.
End ImageSize.
Abbreviation ImageSize := ImageSize.t.

Definition DefaultThumbnailSize : ImageSize :=
  {| ImageSize.Width := 220; ImageSize.Height := 220 |}.

Module ImageDimension.
Record t := mk {
  Width : Z;
  Height : Z;
  Percentage : float;
  Prefix : string;
  Name : string;
  DestinationOverride : string
}.
End ImageDimension.
Abbreviation ImageDimension := ImageDimension.t.

Module GenerationResult.
Record t := mk { Filename : string; Path : string; Error : error_result }.
(** The zero value [GenerationResult{}]. *)
Definition zero : t := {| Filename := ""; Path := ""; Error := None |}.
End GenerationResult.
Abbreviation GenerationResult := GenerationResult.t.

(** ** The codec [github.com/sunshineplan/imgconv], as far as the package
    names it *)
Module imgconv.

Inductive Format :=
| JPEG | PNG | GIF | TIFF | BMP | PDF | WEBP
| UnknownFormat (n : Z).

Module FormatOption.
Record t := mk { Format : Format }.
End FormatOption.

Module ResizeOption.
Record t := mk { Width : Z; Height : Z; Percent : float }.
End ResizeOption.

End imgconv.

(** [os.FileMode] permission bits. *)
Definition FileMode := N.
Definition mode_0755 : FileMode := (7 * 64 + 5 * 8 + 5)%N.

(** The platform under the package: decoded pixel data, the world the codec
    and the file system live in, and the calls the package makes. A call
    returns or panics; [image.Image] results may be [nil] ([None]). The
    panic of an outcome is a panic in the goroutine of the call, the only
    kind a deferred [recover] of the caller sees. *)
Class Platform := {
  Pixels : Type;
  World : Type;
  (** [src.Bounds().Max] *)
  Bounds_Max : Pixels -> ImageSize;
  (** [imgconv.Open(path)]: a decoded image or an error. *)
  imgconv_Open : string -> World -> outcome (Pixels + error) * World;
  (** [imgconv.Resize(base, option)] *)
  imgconv_Resize :
    Pixels -> imgconv.ResizeOption.t -> outcome (option Pixels);
  (** [imgconv.Save(output, base, option)] *)
  imgconv_Save :
    string -> option Pixels -> imgconv.FormatOption.t -> World ->
    outcome error_result * World;
  (** [os.MkdirAll(path, perm)] *)
  os_MkdirAll : string -> FileMode -> World -> outcome error_result * World
}.

(** [image.Image]: an interface value, [nil] or pixel data. *)
Definition image_Image `{Platform} : Type := option Pixels.

Module Image.
Record t `{Platform} := mk {
  Path : string;
  ImageData : image_Image;
  Size : ImageSize;
  TargetDimension : ImageSize
}.
Definition set_ImageData `{Platform} (i : t) (d : image_Image) : t :=
  {| Path := Path i; ImageData := d; Size := Size i;
     TargetDimension := TargetDimension i |}.
Definition set_TargetDimension `{Platform} (i : t) (d : ImageSize) : t :=
  {| Path := Path i; ImageData := ImageData i; Size := Size i;
     TargetDimension := d |}.
End Image.
Abbreviation Image := Image.t.

(** [*Image]: [nil] or the location of an [Image] in the heap. *)
Definition ImagePtr := option nat.

Module Generator.
Record t := mk {
  Width : Z;
  Height : Z;
  PreferredFormat : imgconv.FormatOption.t;
  Name : string;
  DestinationPath : string;
  Prefix : string;
  OutputFormats : list ImageDimension
}.
End Generator.
Abbreviation Generator := Generator.t.

(** ** Running Go code: heap, world, trace, panics *)

Section Program.
Context `{P : Platform}.

(** The calls into the platform, as they are made. *)
Inductive Event : Type :=
| EvOpen (path : string)
| EvResize (base : Pixels) (opt : imgconv.ResizeOption.t)
| EvSave (output : string) (base : image_Image)
    (opt : imgconv.FormatOption.t)
| EvMkdirAll (path : string) (perm : FileMode).

Record State := mkState {
  heap : list Image;
  world : World;
  trace : list Event
}.

(** A computation reads and writes the state and returns or panics. The
    state reached at a panic is kept: effects are not rolled back. *)
Definition M (A : Type) : Type := State -> outcome A * State.

Definition ret {A} (a : A) : M A := fun s => (Ret a, s).

Definition panic {A} (r : panic_value) : M A := fun s => (Panic r, s).

Definition bind {A B} (m : M A) (k : A -> M B) : M B :=
  fun s =>
    match m s with
    | (Ret a, s') => k a s'
    | (Panic r, s') => (Panic r, s')
    end.

Notation "'let*' x ':=' m 'in' k" := (bind m (fun x => k))
  (at level 10, x pattern, m at level 100, k at level 200).

(** [*l] for a location: reading a location that holds no [Image] faults. *)
Definition load (l : nat) : M Image :=
  fun s =>
    match heap s !! l with
    | Some v => (Ret v, s)
    | None => (Panic NilDereference, s)
    end.

(** [*i] for a pointer: a nil pointer dereference panics. *)
Definition deref (i : ImagePtr) : M Image :=
  match i with
  | Some l => load l
  | None => panic NilDereference
  end.

(** [i.ImageData = d] *)
Definition assign_ImageData (i : ImagePtr) (d : image_Image) : M unit :=
  let* v := deref i in
  fun s =>
    match i with
    | Some l =>
        (Ret tt, mkState (<[l := Image.set_ImageData v d]> (heap s))
                         (world s) (trace s))
    | None => (Panic NilDereference, s)
    end.

(** [i.TargetDimension = d] *)
Definition assign_TargetDimension (i : ImagePtr) (d : ImageSize) : M unit :=
  let* v := deref i in
  fun s =>
    match i with
    | Some l =>
        (Ret tt, mkState (<[l := Image.set_TargetDimension v d]> (heap s))
                         (world s) (trace s))
    | None => (Panic NilDereference, s)
    end.

(** [&Image{...}]: a fresh location. *)
Definition alloc (v : Image) : M ImagePtr :=
  fun s =>
    (Ret (Some (length (heap s))),
     mkState (heap s ++ [v]) (world s) (trace s)).

Definition emit (e : Event) : M unit :=
  fun s => (Ret tt, mkState (heap s) (world s) (trace s ++ [e])).

(** A call that runs in the world. *)
Definition in_world {A} (f : World -> outcome A * World) : M A :=
  fun s =>
    let '(r, w) := f (world s) in (r, mkState (heap s) w (trace s)).

Definition call_Open (path : string) : M (Pixels + error) :=
  let* _ := emit (EvOpen path) in in_world (imgconv_Open path).

Definition call_Resize (base : Pixels) (opt : imgconv.ResizeOption.t)
  : M image_Image :=
  let* _ := emit (EvResize base opt) in
  fun s => (imgconv_Resize base opt, s).

Definition call_Save (output : string) (base : image_Image)
    (opt : imgconv.FormatOption.t) : M error_result :=
  let* _ := emit (EvSave output base opt) in
  in_world (imgconv_Save output base opt).

Definition call_MkdirAll (path : string) (perm : FileMode) : M error_result :=
  let* _ := emit (EvMkdirAll path perm) in in_world (os_MkdirAll path perm).

(** [defer func() { if r := recover(); r != nil { err = fmt.Errorf(
    "recovered from panic: %v", r) } }()] on a function with the named
    results [(result, err)]: they are assigned only by [return], so at a panic
    [result] still is its zero value. *)
Definition recovered {A} (zero : A) (body : M (A * error_result))
  : M (A * error_result) :=
  fun s =>
    match body s with
    | (Ret a, s') => (Ret a, s')
    | (Panic r, s') =>
        (Ret (zero, Some (Errorf_panic "recovered from panic: %v" r)), s')
    end.

(** [p != nil] for a pointer. *)
Definition not_nil {A} (p : option A) : bool :=
  match p with Some _ => true | None => false end.

(** [err.( *fs.PathError)], the form with one result: it panics when the
    dynamic type of [err] is another one. *)
Definition assert_PathError (err : error) : M (option PathError.t) :=
  match err with
  | PathErrorPtr p => ret p
  | _ => panic (TypeAssertionError err)
  end.

(** ** The package *)

(** [New] *)
Definition New (c : Generator) : Generator :=
  {| Generator.Width := Generator.Width c;
     Generator.Height := Generator.Height c;
     Generator.Name := Generator.Name c;
     Generator.DestinationPath := Generator.DestinationPath c;
     Generator.Prefix := Generator.Prefix c;
     Generator.PreferredFormat :=
       {| imgconv.FormatOption.Format := imgconv.JPEG |};
     Generator.OutputFormats := [] |}.

(** [NewGenerator] *)
Definition NewGenerator (c : Generator) (outputFormats : list ImageDimension)
  : Generator :=
  {| Generator.Width := 300;
     Generator.Height := 300;
     Generator.Name := Generator.Name c;
     Generator.DestinationPath := Generator.DestinationPath c;
     Generator.Prefix := Generator.Prefix c;
     Generator.PreferredFormat :=
       {| imgconv.FormatOption.Format := imgconv.JPEG |};
     Generator.OutputFormats := outputFormats |}.

(** [ImageFromFile] *)
Definition ImageFromFile (path : string) : M (ImagePtr * error_result) :=
  let* r := call_Open path in
  match r with
  | inr err => ret (None, Some err)
  | inl src =>
      let* i := alloc {| Image.Path := path;
                         Image.ImageData := Some src;
                         Image.Size := Bounds_Max src;
                         Image.TargetDimension := DefaultThumbnailSize |} in
      ret (i, None)
  end.

Definition generator_size (gen : Generator) : ImageSize :=
  {| ImageSize.Width := Generator.Width gen;
     ImageSize.Height := Generator.Height gen |}.

(** [NewImageFromFile] *)
Definition NewImageFromFile (gen : Generator) (path : string)
  : M (ImagePtr * error_result) :=
  let* (img, err) := ImageFromFile path in
  match err with
  | Some e => ret (None, Some e)
  | None =>
      let* _ := assign_TargetDimension img (generator_size gen) in
      ret (img, None)
  end.

(** [NewImageFromFilewWithDefault] *)
Definition NewImageFromFilewWithDefault (gen : Generator)
    (path defaultImg : string) : M (ImagePtr * error_result) :=
  let finish (img : ImagePtr) : M (ImagePtr * error_result) :=
    let* _ := assign_TargetDimension img (generator_size gen) in
    ret (img, None) in
  let* (img, err) := ImageFromFile path in
  match err with
  | Some e =>
      if negb (defaultImg =? "")%string then
        let* (img, err) := ImageFromFile defaultImg in
        match err with
        | Some e' => ret (None, Some e')
        | None => finish img
        end
      else ret (None, Some e)
  | None => finish img
  end.

(** [CreateThumbnail] *)
Definition CreateThumbnail (i : ImagePtr) (dimension : ImageDimension)
  : M (image_Image * error_result) :=
  recovered None
    match i with
    | None => ret (None, Some ErrInvalidImageData)
    | Some l =>
        let* v := load l in
        match Image.ImageData v with
        | None => ret (None, Some ErrInvalidImageData)
        | Some data =>
            if float_gt (ImageDimension.Percentage dimension) 0%float then
              let* mark :=
                call_Resize data
                  {| imgconv.ResizeOption.Width := 0;
                     imgconv.ResizeOption.Height := 0;
                     imgconv.ResizeOption.Percent :=
                       ImageDimension.Percentage dimension |} in
              ret (mark, None)
            else if (0 <? ImageDimension.Width dimension)
                    && (0 <? ImageDimension.Height dimension) then
              let* mark :=
                call_Resize data
                  {| imgconv.ResizeOption.Width :=
                       ImageDimension.Width dimension;
                     imgconv.ResizeOption.Height :=
                       ImageDimension.Height dimension;
                     imgconv.ResizeOption.Percent := 0%float |} in
              ret (mark, None)
            else if 0 <? ImageDimension.Width dimension then
              let* mark :=
                call_Resize data
                  {| imgconv.ResizeOption.Width :=
                       ImageDimension.Width dimension;
                     imgconv.ResizeOption.Height := 0;
                     imgconv.ResizeOption.Percent := 0%float |} in
              ret (mark, None)
            else if 0 <? ImageDimension.Height dimension then
              let* mark :=
                call_Resize data
                  {| imgconv.ResizeOption.Width := 0;
                     imgconv.ResizeOption.Height :=
                       ImageDimension.Height dimension;
                     imgconv.ResizeOption.Percent := 0%float |} in
              ret (mark, None)
            else ret (None, Some ErrInvalidNoTransformProvided)
        end
    end.

(** [Generator.GetProcessedImage] *)
Definition GetProcessedImage (gen : Generator) (i : ImagePtr)
    (dimension : ImageDimension) : M (image_Image * error_result) :=
  CreateThumbnail i dimension.

(** [Generator.GetProcessedImage] as the earlier revision kept in
    [thumbnail.go] has it: a method with a body of its own, and one branch
    for a width or a height. *)
Definition GetProcessedImage_earlier (gen : Generator) (i : ImagePtr)
    (dimension : ImageDimension) : M (image_Image * error_result) :=
  recovered None
    match i with
    | None => ret (None, Some ErrInvalidImageData)
    | Some l =>
        let* v := load l in
        match Image.ImageData v with
        | None => ret (None, Some ErrInvalidImageData)
        | Some data =>
            if float_gt (ImageDimension.Percentage dimension) 0%float then
              let* mark :=
                call_Resize data
                  {| imgconv.ResizeOption.Width := 0;
                     imgconv.ResizeOption.Height := 0;
                     imgconv.ResizeOption.Percent :=
                       ImageDimension.Percentage dimension |} in
              ret (mark, None)
            else if (0 <? ImageDimension.Width dimension)
                    || (0 <? ImageDimension.Height dimension) then
              let* mark :=
                call_Resize data
                  {| imgconv.ResizeOption.Width :=
                       ImageDimension.Width dimension;
                     imgconv.ResizeOption.Height :=
                       ImageDimension.Height dimension;
                     imgconv.ResizeOption.Percent := 0%float |} in
              ret (mark, None)
            else ret (None, Some ErrInvalidNoTransformProvided)
        end
    end.

(** The body of [saveInternal] from the label [try_again] on. A jump back to
    the label is a recursive call; [fuel] bounds the number of passes through
    the label (see [try_again_fuel]: two are always enough). *)
Fixpoint try_again (fuel : nat) (output : string) (base : image_Image)
    (opt : imgconv.FormatOption.t) (alreadyTried : bool)
  : M error_result :=
  match fuel with
  | O => panic OutOfFuel
  | S fuel' =>
      let* err := call_Save output base opt in
      match err with
      | Some e =>
          let* pathErr := assert_PathError e in
          if not_nil pathErr && negb alreadyTried then
            let alreadyTried := true in
            let dirPath := filepath.Dir output in
            let* mkdirErr := call_MkdirAll dirPath mode_0755 in
            try_again fuel' output base opt alreadyTried
          else ret (Some e)
      | None => ret None
      end
  end.

(** [saveInternal] *)
Definition saveInternal (output : string) (base : image_Image)
    (opt : imgconv.FormatOption.t) : M error_result :=
  let alreadyTried := false in
  try_again 2 output base opt alreadyTried.

(** [Generator.Save] *)
Definition Save (gen : Generator) (i : ImagePtr)
  : M (GenerationResult * error_result) :=
  recovered GenerationResult.zero
    match i with
    | None => ret (GenerationResult.zero, Some ErrInvalidImageData)
    | Some l =>
        let* v := load l in
        match Image.ImageData v with
        | None => ret (GenerationResult.zero, Some ErrInvalidImageData)
        | Some _ =>
            let basefileName := filepath.Base (Image.Path v) in
            let basefileName :=
              if (0 <? len (Generator.Name gen))%nat
              then Generator.Name gen else basefileName in
            let directoryPath := Generator.DestinationPath gen in
            let destpath :=
              filepath.Join
                [directoryPath; Generator.Prefix gen +:+ basefileName] in
            let* err :=
              saveInternal destpath (Image.ImageData v)
                (Generator.PreferredFormat gen) in
            match err with
            | Some e =>
                ret (GenerationResult.zero,
                     Some (Errorf_error "failed to write image: %v" e))
            | None =>
                ret ({| GenerationResult.Filename := basefileName;
                        GenerationResult.Path := destpath;
                        GenerationResult.Error := None |}, None)
            end
        end
    end.

(** [Generator.SaveWithDimension]; [imgConf] is a [*ImageDimension] that is
    only read. *)
Definition SaveWithDimension (gen : Generator) (i : ImagePtr)
    (imgConf : option ImageDimension)
  : M (GenerationResult * error_result) :=
  recovered GenerationResult.zero
    match i with
    | None => ret (GenerationResult.zero, Some ErrInvalidImageData)
    | Some l =>
        let* v := load l in
        match Image.ImageData v, imgConf with
        | None, _ | _, None =>
            ret (GenerationResult.zero, Some ErrInvalidImageData)
        | Some _, Some imgConf =>
            let prefix :=
              if (0 <? len (ImageDimension.Prefix imgConf))%nat
              then ImageDimension.Prefix imgConf
              else Generator.Prefix gen in
            let basefileName :=
              if (0 <? len (ImageDimension.Name imgConf))%nat
              then filepath.Base (ImageDimension.Name imgConf)
              else filepath.Base (Image.Path v) in
            let '(destpath, directoryPath) :=
              if (0 <? len (ImageDimension.DestinationOverride imgConf))%nat
              then (ImageDimension.DestinationOverride imgConf, "")
              else ("", Generator.DestinationPath gen) in
            let fileLocationPath :=
              filepath.Join [directoryPath; prefix +:+ basefileName] in
            let* err :=
              saveInternal fileLocationPath (Image.ImageData v)
                (Generator.PreferredFormat gen) in
            match err with
            | Some e =>
                ret (GenerationResult.zero,
                     Some (Errorf_error "failed to write image: %v" e))
            | None =>
                ret ({| GenerationResult.Filename := basefileName;
                        GenerationResult.Path := destpath;
                        GenerationResult.Error := None |}, None)
            end
        end
    end.

(** [SaveRaw] *)
Definition SaveRaw (i : image_Image) (path : string)
    (format : imgconv.FormatOption.t)
  : M (GenerationResult * error_result) :=
  recovered GenerationResult.zero
    match i with
    | None => ret (GenerationResult.zero, Some ErrInvalidImageData)
    | Some _ =>
        if (len path =? 0)%nat
        then ret (GenerationResult.zero, Some ErrInvalidImageData)
        else
          let basefileName := filepath.Base path in
          let destpath := path in
          let* err := call_Save destpath i format in
          match err with
          | Some e =>
              ret (GenerationResult.zero,
                   Some (Errorf_error "failed to write image: %v" e))
          | None =>
              ret ({| GenerationResult.Filename := basefileName;
                      GenerationResult.Path := destpath;
                      GenerationResult.Error := None |}, None)
          end
    end.

(** The [GenerationResult] of a failed step of [Generate]: it reads
    [i.Path]. *)
Definition failed_result (i : ImagePtr) (err : error)
  : M GenerationResult :=
  let* v := deref i in
  ret {| GenerationResult.Filename := Image.Path v;
         GenerationResult.Path := Image.Path v;
         GenerationResult.Error := Some err |}.

(** The [for _, outputFormat := range gen.OutputFormats] loop of [Generate],
    from the formats still to do and the [result] slice so far. *)
Fixpoint Generate_loop (gen : Generator) (i : ImagePtr)
    (formats : list ImageDimension) (result : list GenerationResult)
  : M (list GenerationResult) :=
  match formats with
  | [] => ret result
  | outputFormat :: formats' =>
      let* (thumbImg, err) := GetProcessedImage gen i outputFormat in
      match err with
      | Some e =>
          let* r := failed_result i e in
          Generate_loop gen i formats' (result ++ [r])
      | None =>
          let img := i in
          let* _ := assign_ImageData img thumbImg in
          let* (save, err) :=
            SaveWithDimension gen img (Some outputFormat) in
          match err with
          | Some e =>
              let* r := failed_result i e in
              Generate_loop gen i formats' (result ++ [r])
          | None => Generate_loop gen i formats' (result ++ [save])
          end
      end
  end.

(** [Generator.Generate]; the [nil] slice is the empty list. *)
Definition Generate (gen : Generator) (i : ImagePtr)
  : M (list GenerationResult * error_result) :=
  let result := [] in
  if (length (Generator.OutputFormats gen) =? 0)%nat
  then ret ([], Some ErrInvalidNoTransformProvided)
  else
    let* result := Generate_loop gen i (Generator.OutputFormats gen) result in
    ret (result, None).

(** ** Observations on a run *)

(** What [CreateThumbnail] returns after it has called the resize with [opt]
    on the pixel data [data] in the state [s]. *)
Definition resized_with (data : Pixels) (opt : imgconv.ResizeOption.t)
    (s : State) : outcome (image_Image * error_result) * State :=
  (match imgconv_Resize data opt with
   | Ret mark => Ret (mark, None)
   | Panic r =>
       Ret (None, Some (Errorf_panic "recovered from panic: %v" r))
   end,
   mkState (heap s) (world s) (trace s ++ [EvResize data opt])).

(** The pixel data an image holds after a resize call on [base], when it
    held [data] before: the resize result, and [data] when the resize
    panicked. *)
Definition after_resize (data : image_Image) (base : Pixels)
    (opt : imgconv.ResizeOption.t) : image_Image :=
  match imgconv_Resize base opt with
  | Ret mark => mark
  | Panic _ => data
  end.

(** The pixel data the image holds after the calls of the trace [t], when it
    held [data] before them. *)
Fixpoint data_after (data : image_Image) (t : list Event) : image_Image :=
  match t with
  | [] => data
  | EvResize base opt :: t' => data_after (after_resize data base opt) t'
  | _ :: t' => data_after data t'
  end.

(** Every resize and every save of the trace [t] is given the pixel data the
    image holds at that point of the trace. *)
Fixpoint operates_on (data : image_Image) (t : list Event) : Prop :=
  match t with
  | [] => True
  | EvResize base opt :: t' =>
      data = Some base /\ operates_on (after_resize data base opt) t'
  | EvSave _ base _ :: t' => base = data /\ operates_on data t'
  | _ :: t' => operates_on data t'
  end.

(** The resize calls of a trace, in order. *)
Definition resizes (t : list Event)
  : list (Pixels * imgconv.ResizeOption.t) :=
  omap (fun e =>
          match e with EvResize base opt => Some (base, opt) | _ => None end)
       t.

(** The output paths of the write attempts of a trace, in order. *)
Definition saves (t : list Event) : list string :=
  omap (fun e => match e with EvSave output _ _ => Some output | _ => None end)
       t.

(** The directory creations of a trace, in order. *)
Definition mkdirs (t : list Event) : list (string * FileMode) :=
  omap (fun e =>
          match e with EvMkdirAll path perm => Some (path, perm) | _ => None end)
       t.

(** The write attempt and the directory creation of [saveInternal], and the
    state after a run that left the heap alone, moved the world to [w] and
    traced [t]. *)
Definition attempt (output : string) (base : image_Image)
    (opt : imgconv.FormatOption.t) : Event := EvSave output base opt.

Definition creation (output : string) : Event :=
  EvMkdirAll (filepath.Dir output) mode_0755.

Definition extend (s : State) (w : World) (t : list Event) : State :=
  mkState (heap s) w (trace s ++ t).

(** The names [SaveWithDimension] resolves, as its local variables
    [prefix], [basefileName], [destpath], [directoryPath] and
    [fileLocationPath]. *)
Definition resolved_prefix (gen : Generator) (d : ImageDimension) : string :=
  if (0 <? len (ImageDimension.Prefix d))%nat
  then ImageDimension.Prefix d else Generator.Prefix gen.

Definition resolved_basefileName (v : Image) (d : ImageDimension) : string :=
  if (0 <? len (ImageDimension.Name d))%nat
  then filepath.Base (ImageDimension.Name d)
  else filepath.Base (Image.Path v).

Definition resolved_destpath (d : ImageDimension) : string :=
  if (0 <? len (ImageDimension.DestinationOverride d))%nat
  then ImageDimension.DestinationOverride d else "".

Definition resolved_directoryPath (gen : Generator) (d : ImageDimension)
  : string :=
  if (0 <? len (ImageDimension.DestinationOverride d))%nat
  then "" else Generator.DestinationPath gen.

Definition resolved_fileLocationPath (gen : Generator) (v : Image)
    (d : ImageDimension) : string :=
  filepath.Join [resolved_directoryPath gen d;
                 resolved_prefix gen d +:+ resolved_basefileName v d].

(** The names [Save] resolves, as its local variables [basefileName] and
    [destpath]. *)
Definition Save_basefileName (gen : Generator) (v : Image) : string :=
  if (0 <? len (Generator.Name gen))%nat
  then Generator.Name gen else filepath.Base (Image.Path v).

Definition Save_destpath (gen : Generator) (v : Image) : string :=
  filepath.Join [Generator.DestinationPath gen;
                 Generator.Prefix gen +:+ Save_basefileName gen v].

(** The [Image] a loader builds from the decoded file [path]. *)
Definition loaded (path : string) (src : Pixels) (target : ImageSize)
  : Image :=
  {| Image.Path := path;
     Image.ImageData := Some src;
     Image.Size := Bounds_Max src;
     Image.TargetDimension := target |}.

(** The state after [img.ImageData = data] for the image at [l]. *)
Definition with_ImageData (l : nat) (v : Image) (data : image_Image)
    (s : State) : State :=
  mkState (<[l := Image.set_ImageData v data]> (heap s)) (world s) (trace s).

(** The result [Generate] records for a failed step. *)
Definition failure (path : string) (err : error) : GenerationResult :=
  {| GenerationResult.Filename := path;
     GenerationResult.Path := path;
     GenerationResult.Error := Some err |}.

(** [r] is what one pass of the loop of [Generate] records for the
    specification [d] when the pass starts in the state [s] and [path] is the
    source path of the image: the resize of [d] runs in [s], and if it
    succeeds the save runs in the state the assignment [img.ImageData =
    thumbImg] leaves. *)
Definition step_result (gen : Generator) (l : nat) (path : string)
    (d : ImageDimension) (s : State) (r : GenerationResult) : Prop :=
  match GetProcessedImage gen (Some l) d s with
  | (Ret (_, Some e), _) => r = failure path e
  | (Ret (thumbImg, None), s1) =>
      match SaveWithDimension gen (Some l) (Some d)
              (snd (assign_ImageData (Some l) thumbImg s1)) with
      | (Ret (_, Some e), _) => r = failure path e
      | (Ret (save, None), _) =>
          r = save /\ GenerationResult.Error save = None
      | (Panic _, _) => False
      end
  | (Panic _, _) => False
  end.

(** ** The rest of the package *)

(** [Generator.GetGeneratorDimension] *)
Definition GetGeneratorDimension (gen : Generator) : ImageDimension :=
  {| ImageDimension.Width := Generator.Width gen;
     ImageDimension.Height := Generator.Height gen;
     ImageDimension.Percentage := 0%float;
     ImageDimension.Prefix := "";
     ImageDimension.Name := "";
     ImageDimension.DestinationOverride := "" |}.

(** [Generator.Save] as the earlier revision kept in [thumbnail.go] has it.
    The generator of that revision has the field [DestinationPrefix] where
    the later one has [Prefix], and no [Name]: [gen.DestinationPrefix] is
    [Generator.Prefix gen] here. The write is a direct [imgconv.Save]. *)
Definition Save_earlier (gen : Generator) (i : ImagePtr)
  : M (GenerationResult * error_result) :=
  recovered GenerationResult.zero
    match i with
    | None => ret (GenerationResult.zero, Some ErrInvalidImageData)
    | Some l =>
        let* v := load l in
        match Image.ImageData v with
        | Some _ => ret (GenerationResult.zero, Some ErrInvalidImageData)
        | None =>
            let basefileName := filepath.Base (Image.Path v) in
            let directoryPath :=
              Generator.DestinationPath gen +:+ Generator.Prefix gen in
            let destpath := filepath.Join [directoryPath; basefileName] in
            let* err :=
              call_Save destpath (Image.ImageData v)
                (Generator.PreferredFormat gen) in
            match err with
            | Some e =>
                ret (GenerationResult.zero,
                     Some (Errorf_error "failed to write image: %v" e))
            | None =>
                ret ({| GenerationResult.Filename := basefileName;
                        GenerationResult.Path := destpath;
                        GenerationResult.Error := None |}, None)
            end
        end
    end.

(** The loop of [Generate] in the earlier revision: it saves with [Save]. *)
Fixpoint Generate_earlier_loop (gen : Generator) (i : ImagePtr)
    (formats : list ImageDimension) (result : list GenerationResult)
  : M (list GenerationResult) :=
  match formats with
  | [] => ret result
  | outputFormat :: formats' =>
      let* (thumbImg, err) := GetProcessedImage_earlier gen i outputFormat in
      match err with
      | Some e =>
          let* r := failed_result i e in
          Generate_earlier_loop gen i formats' (result ++ [r])
      | None =>
          let img := i in
          let* _ := assign_ImageData img thumbImg in
          let* (save, err) := Save_earlier gen img in
          match err with
          | Some e =>
              let* r := failed_result i e in
              Generate_earlier_loop gen i formats' (result ++ [r])
          | None => Generate_earlier_loop gen i formats' (result ++ [save])
          end
      end
  end.

(** [Generator.Generate] in the earlier revision. *)
Definition Generate_earlier (gen : Generator) (i : ImagePtr)
  : M (list GenerationResult * error_result) :=
  let result := [] in
  if (length (Generator.OutputFormats gen) =? 0)%nat
  then ret ([], Some ErrInvalidNoTransformProvided)
  else
    let* result :=
      Generate_earlier_loop gen i (Generator.OutputFormats gen) result in
    ret (result, None).

(** One pass of the loop of [Generate]: the result it appends. *)
Definition Generate_pass (gen : Generator) (i : ImagePtr)
    (outputFormat : ImageDimension) : M GenerationResult :=
  let* (thumbImg, err) := GetProcessedImage gen i outputFormat in
  match err with
  | Some e => failed_result i e
  | None =>
      let img := i in
      let* _ := assign_ImageData img thumbImg in
      let* (save, err) := SaveWithDimension gen img (Some outputFormat) in
      match err with
      | Some e => failed_result i e
      | None => ret save
      end
  end.

(** One pass of the loop of [Generate] in the earlier revision. *)
Definition Generate_earlier_pass (gen : Generator) (i : ImagePtr)
    (outputFormat : ImageDimension) : M GenerationResult :=
  let* (thumbImg, err) := GetProcessedImage_earlier gen i outputFormat in
  match err with
  | Some e => failed_result i e
  | None =>
      let img := i in
      let* _ := assign_ImageData img thumbImg in
      let* (save, err) := Save_earlier gen img in
      match err with
      | Some e => failed_result i e
      | None => ret save
      end
  end.

(** The files opened in a trace, in order. *)
Definition opens (t : list Event) : list string :=
  omap (fun e => match e with EvOpen path => Some path | _ => None end) t.

(** The trace [t] stays within [n] resizes, [2 * n] write attempts and [n]
    directory creations, and opens no file. *)
Definition calls_within (n : nat) (t : list Event) : Prop :=
  (length (resizes t) <= n)%nat /\ (length (saves t) <= 2 * n)%nat
  /\ (length (mkdirs t) <= n)%nat /\ opens t = [].

(** [t] is one of the three traces of [saveInternal]. *)
Definition saveInternal_trace (output : string) (base : image_Image)
    (opt : imgconv.FormatOption.t) (t : list Event) : Prop :=
  t = [attempt output base opt]
  \/ t = [attempt output base opt; creation output]
  \/ t = [attempt output base opt; creation output; attempt output base opt].

(** The event is a write attempt that is given pixel data. *)
Definition writes_pixels (e : Event) : bool :=
  match e with
  | EvSave _ (Some _) _ => true
  | _ => false
  end.

(** The generator [gen] with the output formats [formats]. *)
Definition with_OutputFormats (gen : Generator)
    (formats : list ImageDimension) : Generator :=
  {| Generator.Width := Generator.Width gen;
     Generator.Height := Generator.Height gen;
     Generator.PreferredFormat := Generator.PreferredFormat gen;
     Generator.Name := Generator.Name gen;
     Generator.DestinationPath := Generator.DestinationPath gen;
     Generator.Prefix := Generator.Prefix gen;
     Generator.OutputFormats := formats |}.

(** The string has a path separator in it. *)
Fixpoint has_separator (s : string) : bool :=
  match s with
  | EmptyString => false
  | String c rest => filepath.IsPathSeparator c || has_separator rest
  end.

End Program.

(** ** The resize modes of the specification

    At most one mode per specification, first match wins: a percentage, an
    exact width and height, a width alone, a height alone. *)
Inductive resize_mode : Type :=
| Proportional (percentage : float)
| Exact (width height : Z)
| WidthDriven (width : Z)
| HeightDriven (height : Z).

Inductive selects (d : ImageDimension) : option resize_mode -> Prop :=
| selects_percentage :
    float_gt (ImageDimension.Percentage d) 0%float = true ->
    selects d (Some (Proportional (ImageDimension.Percentage d)))
| selects_exact :
    float_gt (ImageDimension.Percentage d) 0%float = false ->
    0 < ImageDimension.Width d -> 0 < ImageDimension.Height d ->
    selects d (Some (Exact (ImageDimension.Width d)
                           (ImageDimension.Height d)))
| selects_width :
    float_gt (ImageDimension.Percentage d) 0%float = false ->
    0 < ImageDimension.Width d -> ~ 0 < ImageDimension.Height d ->
    selects d (Some (WidthDriven (ImageDimension.Width d)))
| selects_height :
    float_gt (ImageDimension.Percentage d) 0%float = false ->
    ~ 0 < ImageDimension.Width d -> 0 < ImageDimension.Height d ->
    selects d (Some (HeightDriven (ImageDimension.Height d)))
| selects_none :
    float_gt (ImageDimension.Percentage d) 0%float = false ->
    ~ 0 < ImageDimension.Width d -> ~ 0 < ImageDimension.Height d ->
    selects d None.

(** The [imgconv.ResizeOption] of a mode: a percentage scales both axes by
    it; a zero width or height is the axis the codec derives from the other
    one, keeping the aspect ratio. *)
Definition ResizeOption_of_mode (m : resize_mode) : imgconv.ResizeOption.t :=
  match m with
  | Proportional p =>
      {| imgconv.ResizeOption.Width := 0; imgconv.ResizeOption.Height := 0;
         imgconv.ResizeOption.Percent := p |}
  | Exact w h =>
      {| imgconv.ResizeOption.Width := w; imgconv.ResizeOption.Height := h;
         imgconv.ResizeOption.Percent := 0%float |}
  | WidthDriven w =>
      {| imgconv.ResizeOption.Width := w; imgconv.ResizeOption.Height := 0;
         imgconv.ResizeOption.Percent := 0%float |}
  | HeightDriven h =>
      {| imgconv.ResizeOption.Width := 0; imgconv.ResizeOption.Height := h;
         imgconv.ResizeOption.Percent := 0%float |}
  end.

(** ** The passes of one [Generate] call

    What the loop of [Generate] does to the image it works on, told by the
    calls it makes. *)
Section Passes.
Context `{P : Platform}.

(** [t] is the trace of one pass of the loop for the specification [d] on
    the image [v], and [data'] the pixel data the image holds after it.
    Without pixel data nothing is called. With pixel data [base] and no
    mode selected nothing is called and the data stays. With a mode [m]
    the resize of [m] is called on [base]: when it panics the data stays;
    when it returns, its result replaces the data, and a result that is
    not nil is then written, as one of the traces of [saveInternal]. *)
Definition pass_trace (gen : Generator) (v : Image) (d : ImageDimension)
    (t : list Event) (data' : image_Image) : Prop :=
  match Image.ImageData v with
  | None => t = [] /\ data' = None
  | Some base =>
      (selects d None /\ t = [] /\ data' = Some base)
      \/ exists m,
           selects d (Some m)
           /\ match imgconv_Resize base (ResizeOption_of_mode m) with
              | Panic _ =>
                  t = [EvResize base (ResizeOption_of_mode m)]
                  /\ data' = Some base
              | Ret None =>
                  t = [EvResize base (ResizeOption_of_mode m)]
                  /\ data' = None
              | Ret (Some mark) =>
                  data' = Some mark
                  /\ exists t',
                       t = EvResize base (ResizeOption_of_mode m) :: t'
                       /\ saveInternal_trace
                            (resolved_fileLocationPath gen v d) (Some mark)
                            (Generator.PreferredFormat gen) t'
              end
  end.

(** [t] is the trace of the passes for [formats], one after the other, on an
    image that starts as [v], each pass on the pixel data the pass before it
    left in the image; [final] is the pixel data the image holds in the
    end. *)
Fixpoint run_trace (gen : Generator) (v : Image)
    (formats : list ImageDimension) (t : list Event) (final : image_Image)
  : Prop :=
  match formats with
  | [] => t = [] /\ final = Image.ImageData v
  | d :: formats' =>
      exists t1 t2 (data' : image_Image),
        t = t1 ++ t2
        /\ pass_trace gen v d t1 data'
        /\ run_trace gen (Image.set_ImageData v data') formats' t2 final
  end.

(** The resize call of a trace entry does not return. *)
Definition no_return (c : Pixels * imgconv.ResizeOption.t) : Prop :=
  forall mark : image_Image, imgconv_Resize c.1 c.2 <> Ret mark.

End Passes.

(** ** A test bed: a small platform to run the package on

    Pixel data is the history of a picture: where it was decoded from and the
    resize options applied since. The world is a file system with existing
    directories, directories that refuse writes, readable image files and the
    files written so far. The encoder rejects formats it does not know with an
    error of its own, and a corrupt picture makes the resize and the encoder
    panic in the goroutine of the call. *)
Module TestBed.

Inductive pix : Type :=
| Decoded (path : string)
| Corrupt (path : string)
| Resized (base : pix) (opt : imgconv.ResizeOption.t).

Record fs := mkfs {
  dirs : list string;
  readonly : list string;
  images : list string;
  files : list (string * pix)
}.

Definition mem (x : string) (l : list string) : bool :=
  existsb (String.eqb x) l.

Definition path_error (op path : string) (err : Errno) : error :=
  PathErrorPtr
    (Some {| PathError.Op := op; PathError.Path := path;
             PathError.Err := err |}).

Definition bounds (p : pix) : ImageSize :=
  match p with
  | Resized _ o =>
      {| ImageSize.Width := imgconv.ResizeOption.Width o;
         ImageSize.Height := imgconv.ResizeOption.Height o |}
  | _ => {| ImageSize.Width := 640; ImageSize.Height := 480 |}
  end.

Definition open_file (path : string) (w : fs) : outcome (pix + error) * fs :=
  if mem path (images w) then (Ret (inl (Decoded path)), w)
  else (Ret (inr (path_error "open" path ENOENT)), w).

Definition resize (base : pix) (opt : imgconv.ResizeOption.t)
  : outcome (option pix) :=
  match base with
  | Corrupt _ => Panic (Fault "runtime error: index out of range")
  | _ => Ret (Some (Resized base opt))
  end.

Definition save_file (output : string) (base : option pix)
    (opt : imgconv.FormatOption.t) (w : fs) : outcome error_result * fs :=
  let dir := filepath.Dir output in
  if negb (mem dir (dirs w)) then
    (Ret (Some (path_error "open" output ENOENT)), w)
  else if mem dir (readonly w) then
    (Ret (Some (path_error "open" output EACCES)), w)
  else
    match base, imgconv.FormatOption.Format opt with
    | None, _ => (Panic NilDereference, w)
    | Some (Corrupt _), _ =>
        (Panic (Fault "runtime error: index out of range"), w)
    | Some _, imgconv.UnknownFormat _ =>
        (Ret (Some (Foreign "image: unknown format")), w)
    | Some p, _ =>
        (Ret None,
         mkfs (dirs w) (readonly w) (images w) ((output, p) :: files w))
    end.

Definition mkdir_all (path : string) (perm : FileMode) (w : fs)
  : outcome error_result * fs :=
  if mem path (dirs w) then (Ret None, w)
  else (Ret None, mkfs (path :: dirs w) (readonly w) (images w) (files w)).

#[export] Instance platform : Platform := {|
  Pixels := pix;
  World := fs;
  Bounds_Max := bounds;
  imgconv_Open := open_file;
  imgconv_Resize := resize;
  imgconv_Save := save_file;
  os_MkdirAll := mkdir_all
|}.

Definition jpeg : imgconv.FormatOption.t :=
  {| imgconv.FormatOption.Format := imgconv.JPEG |}.

(** A generator writing JPEG files under [/out] with the prefix [t_]. *)
Definition gen (name : string) (formats : list ImageDimension) : Generator :=
  {| Generator.Width := 300; Generator.Height := 300;
     Generator.PreferredFormat := jpeg;
     Generator.Name := name;
     Generator.DestinationPath := "/out";
     Generator.Prefix := "t_";
     Generator.OutputFormats := formats |}.

Definition dim (w h : Z) (p : float) (prefix name override : string)
  : ImageDimension :=
  {| ImageDimension.Width := w; ImageDimension.Height := h;
     ImageDimension.Percentage := p;
     ImageDimension.Prefix := prefix; ImageDimension.Name := name;
     ImageDimension.DestinationOverride := override |}.

(** The picture [/tmp/c.png], loaded. *)
Definition c_png : Image :=
  {| Image.Path := "/tmp/c.png";
     Image.ImageData := Some (Decoded "/tmp/c.png");
     Image.Size := {| ImageSize.Width := 640; ImageSize.Height := 480 |};
     Image.TargetDimension := DefaultThumbnailSize |}.

(** The working directory exists, [/ro] exists and refuses writes, [/out]
    does not exist yet. *)
Definition disk : fs :=
  {| dirs := ["."; "/"; "/tmp"; "/ro"]; readonly := ["/ro"];
     images := ["/tmp/c.png"]; files := [] |}.

(** One loaded picture at location [0], nothing traced yet. *)
Definition start : State := mkState [c_png] disk [].

(** A width of 100 and nothing else. *)
Definition width_100 : ImageDimension := dim 100 0 0%float "" "" "".

(** Nothing set: not a transform. *)
Definition nothing_set : ImageDimension := dim 0 0 0%float "" "" "".

(** A height of 50, written under an own prefix, name and destination. *)
Definition height_50_override : ImageDimension :=
  dim 0 50 0%float "s_" "n.png" "/custom/x.jpg".

(** A width of 100 with the destination override [t_c.png]. *)
Definition override_t_c : ImageDimension :=
  dim 100 0 0%float "" "" "t_c.png".

(** A corrupt picture at location [0]. *)
Definition corrupt_start : State :=
  mkState [Image.set_ImageData c_png (Some (Corrupt "/tmp/c.png"))] disk [].

(** A format the encoder does not know. *)
Definition format_42 : imgconv.FormatOption.t :=
  {| imgconv.FormatOption.Format := imgconv.UnknownFormat 42 |}.

End TestBed.

(** ** Decoding from memory

    [imgconv.Decode] on a [bytes.Buffer]: it reads no file, so it is a
    function of the bytes; the trace has no event for it. *)
Class Decoder `{P : Platform} := {
  imgconv_Decode : list Byte.byte -> outcome (Pixels + error)
}.

Section FromBytes.
Context `{P : Platform} {D : Decoder}.

(** [Generator.NewImageFromByteArray]: the image has no [Path]. *)
Definition NewImageFromByteArray (gen : Generator) (path : list Byte.byte)
  : M (ImagePtr * error_result) :=
  fun s =>
    match imgconv_Decode path with
    | Panic r => (Panic r, s)
    | Ret (inr err) => (Ret (None, Some err), s)
    | Ret (inl src) =>
        bind (alloc {| Image.Path := "";
                       Image.ImageData := Some src;
                       Image.Size := Bounds_Max src;
                       Image.TargetDimension := generator_size gen |})
             (fun i => ret (i, None)) s
    end.

End FromBytes.

(** The decoder of the test bed: an empty buffer is no image, any other one
    is the picture without a path. *)
Definition TestBed_decode (b : list Byte.byte)
  : outcome (TestBed.pix + error) :=
  match b with
  | [] => Ret (inr (Foreign "image: unknown format"))
  | _ => Ret (inl (TestBed.Decoded ""))
  end.

#[export] Instance TestBed_decoder : @Decoder TestBed.platform :=
  @Build_Decoder TestBed.platform TestBed_decode.

(** The test bed with the picture at location [0] stripped of its pixel
    data. *)
Definition blank_start : State :=
  mkState [Image.set_ImageData TestBed.c_png None] TestBed.disk [].

(** * Properties *)

(** ** Paths *)

Lemma eqb_empty_false (s : string) : (s =? "")%string = false <-> s <> "".
Proof. apply String.eqb_neq. Qed.

Lemma len_positive (s : string) : (0 <? len s)%nat = true <-> s <> "".
Proof.
  destruct s as [|c s]; cbn; split; intros Hs; try done.
Qed.

Lemma len_zero (s : string) : (0 <? len s)%nat = false <-> s = "".
Proof.
  destruct s as [|c s]; cbn; split; intros Hs; try done.
Qed.

Lemma append_nonempty_r (a b : string) : b <> "" -> a +:+ b <> "".
Proof.
  destruct a as [|c a]; cbn; [done|discriminate].
Qed.

Lemma Clean_nonempty (path : string) : filepath.Clean path <> "".
Proof.
  unfold filepath.Clean.
  destruct (path =? "")%string; [discriminate|].
  cbv zeta.
  match goal with
  | |- (if (?r =? "")%string then _ else _) <> _ =>
      destruct (r =? "")%string eqn:Hr
  end.
  - discriminate.
  - by apply eqb_empty_false.
Qed.

Lemma Base_nonempty (path : string) : filepath.Base path <> "".
Proof.
  unfold filepath.Base.
  destruct (path =? "")%string; [discriminate|].
  cbv zeta.
  destruct (List.last _ _ =? "")%string eqn:He; [discriminate|].
  by apply eqb_empty_false.
Qed.

Lemma Join_nonempty (dir name : string) :
  name <> "" -> filepath.Join [dir; name] <> "".
Proof.
  intros Hname. cbn [filepath.Join].
  destruct (dir =? "")%string.
  - apply eqb_empty_false in Hname. rewrite Hname. apply Clean_nonempty.
  - apply Clean_nonempty.
Qed.

(** The permission bits of [0755], from the owner's read bit down to the
    others' execute bit: [rwxr-xr-x]. *)
Lemma mode_0755_bits :
  map (N.testbit mode_0755) [8; 7; 6; 5; 4; 3; 2; 1; 0]%N
  = [true; true; true; true; false; true; true; false; true].
Proof. reflexivity. Qed.

(** [path/filepath] on the paths of its documentation. *)
Example Clean_ex1 : filepath.Clean "a/b/../c" = "a/c".
Proof. reflexivity. Qed.

Example Clean_ex2 : filepath.Clean "/../a//b/./" = "/a/b".
Proof. reflexivity. Qed.

Example Clean_ex3 : filepath.Clean "../../a/.." = "../..".
Proof. reflexivity. Qed.

Example Clean_ex4 : filepath.Clean "a/.." = ".".
Proof. reflexivity. Qed.

Example Clean_ex5 : filepath.Clean "///" = "/".
Proof. reflexivity. Qed.

Example Base_ex1 : filepath.Base "/tmp/c.png" = "c.png".
Proof. reflexivity. Qed.

Example Base_ex2 : filepath.Base "a/b/" = "b".
Proof. reflexivity. Qed.

Example Base_ex3 : filepath.Base "//" = "/".
Proof. reflexivity. Qed.

Example Base_ex4 : filepath.Base "" = ".".
Proof. reflexivity. Qed.

Example Dir_ex1 : filepath.Dir "/out/thumbs/x.jpg" = "/out/thumbs".
Proof. reflexivity. Qed.

Example Dir_ex2 : filepath.Dir "x.jpg" = ".".
Proof. reflexivity. Qed.

Example Dir_ex3 : filepath.Dir "/x.jpg" = "/".
Proof. reflexivity. Qed.

Example Join_ex1 : filepath.Join ["/out"; "t_c.png"] = "/out/t_c.png".
Proof. reflexivity. Qed.

Example Join_ex2 : filepath.Join [""; "t_c.png"] = "t_c.png".
Proof. reflexivity. Qed.

Example Join_ex3 : filepath.Join [""; ""] = "".
Proof. reflexivity. Qed.

Example Join_ex4 : filepath.Join ["a/"; "../b"] = "b".
Proof. reflexivity. Qed.

Section Properties.
Context `{P : Platform}.

Implicit Types (s : State) (l : nat) (v : Image) (gen : Generator).
Implicit Types (d : ImageDimension) (t : list Event).

(** ** Traces *)

Lemma saves_app t1 t2 : saves (t1 ++ t2) = saves t1 ++ saves t2.
Proof. apply omap_app. Qed.

Lemma mkdirs_app t1 t2 : mkdirs (t1 ++ t2) = mkdirs t1 ++ mkdirs t2.
Proof. apply omap_app. Qed.

Lemma data_after_no_resize (data : image_Image) t :
  resizes t = [] -> data_after data t = data.
Proof.
  induction t as [|e t IH]; [done|].
  destruct e; cbn; try done. all: apply IH.
Qed.

Lemma data_after_app (data : image_Image) t1 t2 :
  data_after data (t1 ++ t2) = data_after (data_after data t1) t2.
Proof.
  revert data. induction t1 as [|e t1 IH]; intros data; [done|].
  destruct e; cbn; apply IH.
Qed.

Lemma operates_on_app (data : image_Image) t1 t2 :
  operates_on data (t1 ++ t2)
  <-> operates_on data t1 /\ operates_on (data_after data t1) t2.
Proof.
  revert data. induction t1 as [|e t1 IH]; intros data; cbn; [tauto|].
  destruct e; cbn; rewrite ?IH; tauto.
Qed.

(** ** [saveInternal] *)

(** All the runs of [saveInternal], by the answers of the platform. *)
Lemma saveInternal_run (output : string) (base : image_Image)
    (opt : imgconv.FormatOption.t) s :
  saveInternal output base opt s =
  match imgconv_Save output base opt (world s) with
  | (Ret None, w1) => (Ret None, extend s w1 [attempt output base opt])
  | (Panic r, w1) => (Panic r, extend s w1 [attempt output base opt])
  | (Ret (Some e), w1) =>
      match e with
      | PathErrorPtr (Some _) =>
          match os_MkdirAll (filepath.Dir output) mode_0755 w1 with
          | (Panic r, w2) =>
              (Panic r,
               extend s w2 [attempt output base opt; creation output])
          | (Ret _, w2) =>
              let t := [attempt output base opt; creation output;
                        attempt output base opt] in
              match imgconv_Save output base opt w2 with
              | (Ret None, w3) => (Ret None, extend s w3 t)
              | (Panic r, w3) => (Panic r, extend s w3 t)
              | (Ret (Some e'), w3) =>
                  match e' with
                  | PathErrorPtr _ => (Ret (Some e'), extend s w3 t)
                  | _ => (Panic (TypeAssertionError e'), extend s w3 t)
                  end
              end
          end
      | PathErrorPtr None =>
          (Ret (Some e), extend s w1 [attempt output base opt])
      | _ =>
          (Panic (TypeAssertionError e),
           extend s w1 [attempt output base opt])
      end
  end.
Proof.
  unfold saveInternal, try_again, call_Save, call_MkdirAll, in_world, emit,
    bind, ret, panic, extend, attempt, creation.
  cbn.
  destruct (imgconv_Save output base opt (world s)) as [[[e|]|r] w1]; cbn;
    try done.
  destruct e as [ | [pe|] | | | ]; cbn; try done.
  destruct (os_MkdirAll _ _ w1) as [[m|r] w2]; cbn;
    rewrite <- ?app_assoc; cbn; try done.
  destruct (imgconv_Save output base opt w2) as [[[e'|]|r'] w3]; cbn;
    try done.
  destruct e' as [ | [pe'|] | | | ]; cbn; done.
Qed.

(** Two passes through the label are all [saveInternal] can make. *)
Lemma try_again_fuel (n : nat) (output : string) (base : image_Image)
    (opt : imgconv.FormatOption.t) s :
  try_again (2 + n) output base opt false s = saveInternal output base opt s.
Proof.
  unfold saveInternal. cbn [Nat.add try_again].
  unfold call_Save, call_MkdirAll, in_world, emit, bind, ret, panic. cbn.
  destruct (imgconv_Save output base opt (world s)) as [[[e|]|r] w1]; cbn;
    try done.
  destruct e as [ | [pe|] | | | ]; cbn; try done.
  destruct (os_MkdirAll _ _ w1) as [[m|r] w2]; cbn; try done.
  destruct (imgconv_Save output base opt w2) as [[[e'|]|r'] w3]; cbn;
    try done.
  destruct e' as [ | [pe'|] | | | ]; cbn; done.
Qed.

(** [saveInternal] leaves the heap alone and traces one of three runs. *)
Lemma saveInternal_effects (output : string) (base : image_Image)
    (opt : imgconv.FormatOption.t) s :
  exists w t,
    snd (saveInternal output base opt s) = extend s w t
    /\ (t = [attempt output base opt]
        \/ t = [attempt output base opt; creation output]
        \/ t = [attempt output base opt; creation output;
                attempt output base opt]).
Proof.
  rewrite saveInternal_run.
  destruct (imgconv_Save output base opt (world s)) as [[[e|]|r] w1];
    [|by eauto 6..].
  destruct e as [ | [pe|] | | | ]; [by eauto 6| |by eauto 6..].
  destruct (os_MkdirAll _ _ w1) as [[m|r] w2]; [|by eauto 6].
  cbv zeta.
  destruct (imgconv_Save output base opt w2) as [[[e'|]|r'] w3];
    [|by eauto 7..].
  destruct e' as [ | [pe'|] | | | ]; by eauto 7.
Qed.

Lemma saveInternal_trace_facts (output : string) (base : image_Image)
    (opt : imgconv.FormatOption.t) t :
  t = [attempt output base opt]
  \/ t = [attempt output base opt; creation output]
  \/ t = [attempt output base opt; creation output; attempt output base opt] ->
  saves t <> [] /\ Forall (eq output) (saves t)
  /\ (length (saves t) <= 2)%nat /\ (length (mkdirs t) <= 1)%nat
  /\ operates_on base t /\ data_after base t = base.
Proof.
  intros [->|[->| ->]]; cbn; repeat split; try done; try lia;
    repeat constructor.
Qed.

(** ** [CreateThumbnail] *)

(** The code picks the mode the specification selects. *)
Lemma selects_total d : exists m, selects d m.
Proof.
  destruct (float_gt (ImageDimension.Percentage d) 0%float) eqn:Hp.
  - eexists. by apply selects_percentage.
  - destruct (Z.ltb_spec 0 (ImageDimension.Width d)),
      (Z.ltb_spec 0 (ImageDimension.Height d)).
    + eexists. apply selects_exact; done.
    + eexists. apply selects_width; [done..|lia].
    + eexists. apply selects_height; [done|lia|done].
    + eexists. apply selects_none; [done|lia..].
Qed.

Lemma CreateThumbnail_run l v (data : Pixels) d m s :
  heap s !! l = Some v -> Image.ImageData v = Some data -> selects d m ->
  CreateThumbnail (Some l) d s =
  match m with
  | Some m => resized_with data (ResizeOption_of_mode m) s
  | None => (Ret (None, Some ErrInvalidNoTransformProvided), s)
  end.
Proof.
  intros Hl Hdata Hm.
  unfold CreateThumbnail, recovered, bind, load, resized_with, call_Resize,
    emit, bind, ret.
  rewrite Hl, Hdata.
  destruct Hm as [Hp|Hp Hw Hh|Hp Hw Hh|Hp Hw Hh|Hp Hw Hh]; rewrite Hp.
  - cbn. by destruct (imgconv_Resize data _).
  - apply Z.ltb_lt in Hw, Hh. rewrite Hw, Hh. cbn.
    by destruct (imgconv_Resize data _).
  - apply Z.ltb_lt in Hw. apply Z.ltb_nlt in Hh. rewrite Hw, Hh. cbn.
    by destruct (imgconv_Resize data _).
  - apply Z.ltb_nlt in Hw. apply Z.ltb_lt in Hh. rewrite Hw, Hh. cbn.
    by destruct (imgconv_Resize data _).
  - apply Z.ltb_nlt in Hw, Hh. by rewrite Hw, Hh.
Qed.

Lemma CreateThumbnail_no_data l v d s :
  heap s !! l = Some v -> Image.ImageData v = None ->
  CreateThumbnail (Some l) d s = (Ret (None, Some ErrInvalidImageData), s).
Proof.
  intros Hl Hdata. unfold CreateThumbnail, recovered, bind, load, ret.
  by rewrite Hl, Hdata.
Qed.

(** The earlier revision of [GetProcessedImage] asks the codec for the
    same resize when no width or height is negative. *)
Lemma GetProcessedImage_earlier_agrees gen (i : ImagePtr) d s :
  0 <= ImageDimension.Width d -> 0 <= ImageDimension.Height d ->
  GetProcessedImage_earlier gen i d s = GetProcessedImage gen i d s.
Proof.
  intros Hw Hh.
  unfold GetProcessedImage_earlier, GetProcessedImage, CreateThumbnail,
    recovered.
  destruct i as [l|]; [|done]. unfold bind, load.
  destruct (heap s !! l) as [v|]; [|done].
  destruct (Image.ImageData v) as [data|]; [|done].
  destruct (float_gt _ _); [done|].
  destruct (Z.ltb_spec 0 (ImageDimension.Width d)),
    (Z.ltb_spec 0 (ImageDimension.Height d)); cbn [andb orb]; try done.
  - by replace (ImageDimension.Height d) with 0 by lia.
  - by replace (ImageDimension.Width d) with 0 by lia.
Qed.

(** ** [SaveWithDimension] *)

Lemma SaveWithDimension_run gen l v (data : Pixels) d s :
  heap s !! l = Some v -> Image.ImageData v = Some data ->
  SaveWithDimension gen (Some l) (Some d) s =
  match saveInternal (resolved_fileLocationPath gen v d) (Some data)
          (Generator.PreferredFormat gen) s with
  | (Ret None, s') =>
      (Ret ({| GenerationResult.Filename := resolved_basefileName v d;
               GenerationResult.Path := resolved_destpath d;
               GenerationResult.Error := None |}, None), s')
  | (Ret (Some e), s') =>
      (Ret (GenerationResult.zero,
            Some (Errorf_error "failed to write image: %v" e)), s')
  | (Panic r, s') =>
      (Ret (GenerationResult.zero,
            Some (Errorf_panic "recovered from panic: %v" r)), s')
  end.
Proof.
  intros Hl Hdata.
  unfold SaveWithDimension, recovered, bind, load, ret.
  rewrite Hl, Hdata.
  unfold resolved_fileLocationPath, resolved_directoryPath, resolved_destpath,
    resolved_prefix, resolved_basefileName.
  destruct (0 <? len (ImageDimension.DestinationOverride d))%nat;
    by destruct (saveInternal _ _ _ s) as [[[e|]|r] s'].
Qed.

Lemma SaveWithDimension_no_data gen l v d s :
  heap s !! l = Some v -> Image.ImageData v = None ->
  SaveWithDimension gen (Some l) (Some d) s
  = (Ret (GenerationResult.zero, Some ErrInvalidImageData), s).
Proof.
  intros Hl Hdata. unfold SaveWithDimension, recovered, bind, load, ret.
  by rewrite Hl, Hdata.
Qed.

(** ** The loop of [Generate] *)

Lemma set_ImageData_same v : Image.set_ImageData v (Image.ImageData v) = v.
Proof. by destruct v. Qed.

Lemma set_ImageData_twice v (a b : image_Image) :
  Image.set_ImageData (Image.set_ImageData v a) b = Image.set_ImageData v b.
Proof. done. Qed.

Lemma failed_result_run l v (e : error) s :
  heap s !! l = Some v ->
  failed_result (Some l) e s = (Ret (failure (Image.Path v) e), s).
Proof.
  intros Hl. unfold failed_result, deref, load, bind, ret. by rewrite Hl.
Qed.

Lemma assign_ImageData_run l v (data : image_Image) s :
  heap s !! l = Some v ->
  assign_ImageData (Some l) data s = (Ret tt, with_ImageData l v data s).
Proof.
  intros Hl. unfold assign_ImageData, deref, load, bind. by rewrite Hl.
Qed.

Lemma with_ImageData_lookup l v (data : image_Image) s :
  heap s !! l = Some v ->
  heap (with_ImageData l v data s) !! l = Some (Image.set_ImageData v data).
Proof.
  intros Hl. cbn. apply list_lookup_insert_eq. by eapply lookup_lt_Some.
Qed.

(** One pass of the loop: the result it appends, and what it does to the
    image and to the trace. *)
Lemma Generate_loop_step gen l v d s :
  heap s !! l = Some v ->
  exists (r0 : GenerationResult) (s3 : State) (t : list Event),
    (forall ds result,
        Generate_loop gen (Some l) (d :: ds) result s
        = Generate_loop gen (Some l) ds (result ++ [r0]) s3)
    /\ step_result gen l (Image.Path v) d s r0
    /\ heap s3
       = <[l := Image.set_ImageData v (data_after (Image.ImageData v) t)]>
           (heap s)
    /\ trace s3 = trace s ++ t
    /\ operates_on (Image.ImageData v) t.
Proof.
  intros Hl.
  assert (Hsame : heap s = <[l := Image.set_ImageData v (Image.ImageData v)]>
                             (heap s)).
  { by rewrite set_ImageData_same, list_insert_id. }
  destruct (Image.ImageData v) as [data|] eqn:Hdata.
  2:{ (* the image holds no pixel data *)
    exists (failure (Image.Path v) ErrInvalidImageData), s, [].
    unfold step_result, GetProcessedImage. cbn [Generate_loop].
    unfold GetProcessedImage, bind.
    rewrite (CreateThumbnail_no_data l v d s Hl Hdata).
    rewrite (failed_result_run l v _ s Hl).
    by rewrite app_nil_r. }
  destruct (selects_total d) as [[m|] Hm].
  2:{ (* no transform *)
    exists (failure (Image.Path v) ErrInvalidNoTransformProvided), s, [].
    unfold step_result, GetProcessedImage. cbn [Generate_loop].
    unfold GetProcessedImage, bind.
    rewrite (CreateThumbnail_run l v data d None s Hl Hdata Hm).
    rewrite (failed_result_run l v _ s Hl).
    by rewrite app_nil_r. }
  pose proof (CreateThumbnail_run l v data d (Some m) s Hl Hdata Hm) as Hct.
  unfold resized_with in Hct.
  set (opt := ResizeOption_of_mode m) in *.
  set (s1 := mkState (heap s) (world s) (trace s ++ [EvResize data opt]))
    in *.
  assert (Hl1 : heap s1 !! l = Some v) by done.
  destruct (imgconv_Resize data opt) as [mark|r] eqn:Hresize.
  2:{ (* the resize panics and is recovered *)
    exists (failure (Image.Path v)
              (Errorf_panic "recovered from panic: %v" r)), s1,
      [EvResize data opt].
    unfold step_result, GetProcessedImage. cbn [Generate_loop].
    unfold GetProcessedImage, bind.
    rewrite Hct, (failed_result_run l v _ s1 Hl1).
    cbn. unfold after_resize. by rewrite Hresize. }
  (* the resize returns [mark], which is stored in the image *)
  set (v2 := Image.set_ImageData v mark).
  set (s2 := with_ImageData l v mark s1).
  assert (Hl2 : heap s2 !! l = Some v2) by by apply with_ImageData_lookup.
  assert (Hassign : assign_ImageData (Some l) mark s1 = (Ret tt, s2))
    by by apply assign_ImageData_run.
  destruct mark as [data'|].
  2:{ (* a nil resize result: the save refuses it *)
    exists (failure (Image.Path v) ErrInvalidImageData), s2,
      [EvResize data opt].
    unfold step_result, GetProcessedImage. cbn [Generate_loop].
    unfold GetProcessedImage, bind.
    rewrite Hct, Hassign. cbn [snd].
    rewrite (SaveWithDimension_no_data gen l v2 d s2 Hl2 eq_refl).
    rewrite (failed_result_run l v2 _ s2 Hl2).
    cbn. unfold after_resize. by rewrite Hresize. }
  pose proof (SaveWithDimension_run gen l v2 data' d s2 Hl2 eq_refl) as Hsave.
  destruct (saveInternal_effects (resolved_fileLocationPath gen v2 d)
              (Some data') (Generator.PreferredFormat gen) s2)
    as (w & t' & Hs3 & Ht').
  apply saveInternal_trace_facts in Ht' as (_ & _ & _ & _ & Hop & Hafter).
  destruct (saveInternal _ _ _ s2) as [res s3]. cbn [snd] in Hs3. subst s3.
  assert (Hshape :
    heap (extend s2 w t')
    = <[l := Image.set_ImageData v
               (data_after (Some data) (EvResize data opt :: t'))]> (heap s)
    /\ trace (extend s2 w t') = trace s ++ EvResize data opt :: t'
    /\ operates_on (Some data) (EvResize data opt :: t')).
  { cbn. unfold after_resize. rewrite Hresize, Hafter.
    rewrite <- app_assoc. done. }
  assert (Hl3 : heap (extend s2 w t') !! l = Some v2) by done.
  destruct res as [[e|]|r].
  - exists (failure (Image.Path v)
              (Errorf_error "failed to write image: %v" e)),
      (extend s2 w t'), (EvResize data opt :: t').
    unfold step_result, GetProcessedImage. cbn [Generate_loop].
    unfold GetProcessedImage, bind.
    rewrite Hct, Hassign. cbn [snd]. rewrite Hsave.
    by rewrite (failed_result_run l v2 _ _ Hl3).
  - eexists _, (extend s2 w t'), (EvResize data opt :: t').
    unfold step_result, GetProcessedImage. cbn [Generate_loop].
    unfold GetProcessedImage, bind.
    rewrite Hct, Hassign. cbn [snd]. rewrite Hsave.
    split; [done|]. split; [done|]. done.
  - exists (failure (Image.Path v)
              (Errorf_panic "recovered from panic: %v" r)),
      (extend s2 w t'), (EvResize data opt :: t').
    unfold step_result, GetProcessedImage. cbn [Generate_loop].
    unfold GetProcessedImage, bind.
    rewrite Hct, Hassign. cbn [snd]. rewrite Hsave.
    by rewrite (failed_result_run l v2 _ _ Hl3).
Qed.

(** A nil image makes [Generate] panic at the first format: the resize
    refuses the image and the failed result reads [i.Path]. *)
Lemma Generate_nil_image gen s :
  Generator.OutputFormats gen <> [] ->
  Generate gen None s = (Panic NilDereference, s).
Proof.
  intros Hne. unfold Generate.
  destruct (Generator.OutputFormats gen) as [|d ds]; done.
Qed.

(** The whole loop, by induction on the specifications still to do: one
    result per specification, each the [step_result] of its specification in
    the state the passes before it left, and the trace it leaves. *)
Lemma Generate_loop_run gen l (formats : list ImageDimension) :
  forall (result : list GenerationResult) s v,
    heap s !! l = Some v ->
    exists (rs : list GenerationResult) (s' : State) (t : list Event),
      Generate_loop gen (Some l) formats result s = (Ret (result ++ rs), s')
      /\ length rs = length formats
      /\ heap s'
         = <[l := Image.set_ImageData v (data_after (Image.ImageData v) t)]>
             (heap s)
      /\ trace s' = trace s ++ t
      /\ operates_on (Image.ImageData v) t
      /\ forall (k : nat) d,
           formats !! k = Some d ->
           exists (r : GenerationResult) (sk : State),
             rs !! k = Some r
             /\ Generate_loop gen (Some l) (take k formats) result s
                = (Ret (result ++ take k rs), sk)
             /\ step_result gen l (Image.Path v) d sk r.
Proof.
  induction formats as [|d ds IH]; intros result s v Hl.
  - exists [], s, []. cbn. rewrite !app_nil_r.
    rewrite set_ImageData_same, list_insert_id by done.
    repeat split; done.
  - destruct (Generate_loop_step gen l v d s Hl)
      as (r0 & s3 & t1 & Hstep & Hr0 & Hheap3 & Htrace3 & Hop1).
    set (v3 := Image.set_ImageData v (data_after (Image.ImageData v) t1)).
    assert (Hl3 : heap s3 !! l = Some v3).
    { rewrite Hheap3. apply list_lookup_insert_eq. by eapply lookup_lt_Some. }
    destruct (IH (result ++ [r0]) s3 v3 Hl3)
      as (rs & s' & t2 & Hrun & Hlen & Hheap & Htrace & Hop2 & Hsteps).
    exists (r0 :: rs), s', (t1 ++ t2).
    split; [|split; [|split; [|split; [|split]]]].
    + rewrite Hstep, Hrun. by rewrite <- app_assoc.
    + cbn. by rewrite Hlen.
    + rewrite Hheap, Hheap3, list_insert_insert_eq.
      by rewrite data_after_app.
    + rewrite Htrace, Htrace3. by rewrite app_assoc.
    + by apply operates_on_app.
    + intros [|k] d' Hk.
      * injection Hk as <-. exists r0, s. cbn. by rewrite app_nil_r.
      * destruct (Hsteps k d' Hk) as (r & sk & Hr & Hprefix & Hres).
        exists r, sk. cbn [take]. rewrite Hstep, Hprefix.
        rewrite <- app_assoc. done.
Qed.

(** ** The claims about [CreateThumbnail] and [Generate] *)

Lemma selects_functional d m1 m2 : selects d m1 -> selects d m2 -> m1 = m2.
Proof.
  intros H1 H2. destruct H1, H2; try done; congruence.
Qed.

(** C3: for an image with pixel data, the resize step ([CreateThumbnail], and
    [GetProcessedImage] which is the same) chooses its mode by first match:
    a percentage above zero asks the codec for a scale by that percentage;
    else a width and a height above zero for that exact size; else a width
    above zero alone for that width, the height left to the codec; else a
    height above zero alone for that height; and with none of them it fails
    with [ErrInvalidNoTransformProvided] without calling the codec. Exactly
    one of the five cases applies to a specification. *)
Theorem CreateThumbnail_resize_mode gen l v (data : Pixels) d s :
  heap s !! l = Some v -> Image.ImageData v = Some data ->
  exists m : option resize_mode,
    selects d m
    /\ (forall m', selects d m' -> m' = m)
    /\ GetProcessedImage gen (Some l) d s = CreateThumbnail (Some l) d s
    /\ CreateThumbnail (Some l) d s =
       match m with
       | Some m => resized_with data (ResizeOption_of_mode m) s
       | None => (Ret (None, Some ErrInvalidNoTransformProvided), s)
       end.
Proof.
  intros Hl Hdata. destruct (selects_total d) as [m Hm]. exists m.
  split; [done|]. split; [|split; [done|]].
  - intros m' Hm'. by eapply selects_functional.
  - by eapply CreateThumbnail_run.
Qed.

(** C4: [Generate] returns a top-level error exactly when the generator has
    no output formats; the error then is [ErrInvalidNoTransformProvided],
    there are no results and nothing has been done. With at least one output
    format and an image to work on it returns its results and a nil error,
    whatever happens to the single formats. *)
Theorem Generate_top_level_error gen :
  (Generator.OutputFormats gen = [] ->
   forall (i : ImagePtr) s,
     Generate gen i s = (Ret ([], Some ErrInvalidNoTransformProvided), s))
  /\ (Generator.OutputFormats gen <> [] ->
      forall l v s, heap s !! l = Some v ->
        exists rs s', Generate gen (Some l) s = (Ret (rs, None), s'))
  /\ (forall (i : ImagePtr) s rs (e : error) s',
        Generate gen i s = (Ret (rs, Some e), s') ->
        Generator.OutputFormats gen = []
        /\ e = ErrInvalidNoTransformProvided /\ rs = [] /\ s' = s).
Proof.
  unfold Generate. split; [|split].
  - intros -> i s. done.
  - intros Hne l v s Hl.
    destruct (Generator.OutputFormats gen) as [|d ds] eqn:Hfs; [done|].
    cbn [length Nat.eqb]. unfold bind.
    destruct (Generate_loop_run gen l (d :: ds) [] s v Hl)
      as (rs & s' & t & -> & _).
    by eauto.
  - intros i s rs e s'.
    destruct (Generator.OutputFormats gen) as [|d ds] eqn:Hfs.
    + cbn. unfold ret. intros [= <- <- <-]. done.
    + cbn [length Nat.eqb]. unfold bind, ret.
      destruct (Generate_loop gen i (d :: ds) [] s) as [[rs'|r] s'']; done.
Qed.

(** C5: [Generate] on a nil image with a list of output formats that is not
    empty produces no result at all: the resize step of the first format
    refuses the nil image with [ErrInvalidImageData], the result the loop
    builds for that failure reads [i.Path] of the nil image, and the panic of
    that read leaves [Generate], which has no [recover]: nothing is
    returned, no format after the first is processed, and the state is as
    before the call. *)
Theorem Generate_nil_image_aborts gen d (ds : list ImageDimension) s :
  Generator.OutputFormats gen = d :: ds ->
  GetProcessedImage gen None d s = (Ret (None, Some ErrInvalidImageData), s)
  /\ failed_result None ErrInvalidImageData s = (Panic NilDereference, s)
  /\ Generate gen None s = (Panic NilDereference, s)
  /\ forall (result : list GenerationResult) (err : error_result) s',
       Generate gen None s <> (Ret (result, err), s').
Proof.
  intros Hfs. split; [done|]. split; [done|].
  assert (Hrun : Generate gen None s = (Panic NilDereference, s)).
  { unfold Generate. by rewrite Hfs. }
  split; [done|]. intros result err s'. by rewrite Hrun.
Qed.

(** X21: with N output formats (N > 0) and an image to work on, [Generate]
    returns exactly N results, the k-th being the result of the k-th format
    in the state the formats before it left: when its resize or its save
    fails, the result has the source path of the image as [Filename] and as
    [Path] and that error as [Error], and the loop goes on to the next
    format. *)
Theorem Generate_one_result_per_format gen l v s :
  heap s !! l = Some v -> Generator.OutputFormats gen <> [] ->
  exists (rs : list GenerationResult) (s' : State),
    Generate gen (Some l) s = (Ret (rs, None), s')
    /\ length rs = length (Generator.OutputFormats gen)
    /\ forall (k : nat) d,
         Generator.OutputFormats gen !! k = Some d ->
         exists (r : GenerationResult) (sk : State),
           rs !! k = Some r
           /\ Generate_loop gen (Some l)
                (take k (Generator.OutputFormats gen)) [] s
              = (Ret (take k rs), sk)
           /\ step_result gen l (Image.Path v) d sk r.
Proof.
  intros Hl Hne. unfold Generate.
  destruct (Generator.OutputFormats gen) as [|d ds] eqn:Hfs; [done|].
  cbn [length Nat.eqb]. unfold bind.
  destruct (Generate_loop_run gen l (d :: ds) [] s v Hl)
    as (rs & s' & t & Hrun & Hlen & _ & _ & _ & Hsteps).
  rewrite Hrun. exists rs, s'. split; [done|]. split; [done|].
  intros k d' Hk. destruct (Hsteps k d' Hk) as (r & sk & Hr & Hprefix & Hres).
  by exists r, sk.
Qed.

(** ** The chain of resizes *)

Lemma pass_trace_data gen v d t (data' : image_Image) :
  pass_trace gen v d t data' ->
  data' = data_after (Image.ImageData v) t
  /\ operates_on (Image.ImageData v) t.
Proof.
  unfold pass_trace. destruct (Image.ImageData v) as [base|].
  2:{ by intros [-> ->]. }
  intros [(_ & -> & ->)|(m & _ & Hpass)]; [done|].
  destruct (imgconv_Resize base (ResizeOption_of_mode m)) as [[mark|]|r]
    eqn:Hresize.
  - destruct Hpass as (-> & t' & -> & Ht').
    apply saveInternal_trace_facts in Ht' as (_ & _ & _ & _ & Hop & Hafter).
    cbn. unfold after_resize. by rewrite Hresize, Hafter.
  - destruct Hpass as [-> ->]. cbn. unfold after_resize. by rewrite Hresize.
  - destruct Hpass as [-> ->]. cbn. unfold after_resize. by rewrite Hresize.
Qed.

Lemma run_trace_data gen (formats : list ImageDimension) :
  forall v t (final : image_Image),
    run_trace gen v formats t final ->
    final = data_after (Image.ImageData v) t
    /\ operates_on (Image.ImageData v) t.
Proof.
  induction formats as [|d ds IH]; intros v t final; cbn.
  - by intros [-> ->].
  - intros (t1 & t2 & data' & -> & Hpass & Hrest).
    apply pass_trace_data in Hpass as [-> Hop1].
    apply IH in Hrest as [-> Hop2]. cbn in Hop2.
    split; [by rewrite data_after_app|]. by apply operates_on_app.
Qed.

Lemma data_after_no_return (data : image_Image) t :
  Forall no_return (resizes t) -> data_after data t = data.
Proof.
  induction t as [|e t IH]; [done|].
  destruct e as [path|base opt|output base opt|path perm]; cbn; try done.
  intros Hall. apply Forall_cons in Hall as [Hhere Hall].
  unfold after_resize. destruct (imgconv_Resize base opt) as [mark|r] eqn:Hr.
  - by destruct (Hhere mark).
  - by apply IH.
Qed.

(** One pass of the loop on an image that is not nil. *)
Lemma Generate_loop_pass gen l v d s :
  heap s !! l = Some v ->
  exists (r0 : GenerationResult) (s3 : State) (t : list Event)
         (data' : image_Image),
    (forall ds result,
        Generate_loop gen (Some l) (d :: ds) result s
        = Generate_loop gen (Some l) ds (result ++ [r0]) s3)
    /\ trace s3 = trace s ++ t
    /\ pass_trace gen v d t data'
    /\ heap s3 = <[l := Image.set_ImageData v data']> (heap s).
Proof.
  intros Hl. unfold pass_trace.
  assert (Hsame : heap s = <[l := Image.set_ImageData v (Image.ImageData v)]>
                             (heap s)).
  { by rewrite set_ImageData_same, list_insert_id. }
  destruct (Image.ImageData v) as [data|] eqn:Hdata.
  2:{ (* the image holds no pixel data *)
    exists (failure (Image.Path v) ErrInvalidImageData), s, [], None.
    cbn [Generate_loop]. unfold GetProcessedImage, bind.
    rewrite (CreateThumbnail_no_data l v d s Hl Hdata).
    rewrite (failed_result_run l v _ s Hl).
    by rewrite app_nil_r. }
  destruct (selects_total d) as [[m|] Hm].
  2:{ (* no transform *)
    exists (failure (Image.Path v) ErrInvalidNoTransformProvided), s, [],
      (Some data).
    cbn [Generate_loop]. unfold GetProcessedImage, bind.
    rewrite (CreateThumbnail_run l v data d None s Hl Hdata Hm).
    rewrite (failed_result_run l v _ s Hl).
    rewrite app_nil_r. split; [done|]. split; [done|]. split; [|done].
    by left. }
  pose proof (CreateThumbnail_run l v data d (Some m) s Hl Hdata Hm) as Hct.
  unfold resized_with in Hct.
  set (opt := ResizeOption_of_mode m) in *.
  set (s1 := mkState (heap s) (world s) (trace s ++ [EvResize data opt]))
    in *.
  assert (Hl1 : heap s1 !! l = Some v) by done.
  destruct (imgconv_Resize data opt) as [mark|r] eqn:Hresize.
  2:{ (* the resize panics and is recovered *)
    exists (failure (Image.Path v)
              (Errorf_panic "recovered from panic: %v" r)), s1,
      [EvResize data opt], (Some data).
    cbn [Generate_loop]. unfold GetProcessedImage, bind.
    rewrite Hct, (failed_result_run l v _ s1 Hl1).
    split; [done|]. split; [done|]. split; [|done].
    right. exists m. split; [done|]. fold opt. by rewrite Hresize. }
  (* the resize returns [mark], which is stored in the image *)
  set (v2 := Image.set_ImageData v mark).
  set (s2 := with_ImageData l v mark s1).
  assert (Hl2 : heap s2 !! l = Some v2) by by apply with_ImageData_lookup.
  assert (Hassign : assign_ImageData (Some l) mark s1 = (Ret tt, s2))
    by by apply assign_ImageData_run.
  destruct mark as [data'|].
  2:{ (* a nil resize result: the save refuses it *)
    exists (failure (Image.Path v) ErrInvalidImageData), s2,
      [EvResize data opt], None.
    cbn [Generate_loop]. unfold GetProcessedImage, bind.
    rewrite Hct, Hassign. cbn [snd].
    rewrite (SaveWithDimension_no_data gen l v2 d s2 Hl2 eq_refl).
    rewrite (failed_result_run l v2 _ s2 Hl2).
    split; [done|]. split; [done|]. split; [|done].
    right. exists m. split; [done|]. fold opt. by rewrite Hresize. }
  pose proof (SaveWithDimension_run gen l v2 data' d s2 Hl2 eq_refl) as Hsave.
  destruct (saveInternal_effects (resolved_fileLocationPath gen v2 d)
              (Some data') (Generator.PreferredFormat gen) s2)
    as (w & t' & Hs3 & Ht').
  destruct (saveInternal _ _ _ s2) as [res s3]. cbn [snd] in Hs3. subst s3.
  assert (Hpass :
    trace (extend s2 w t') = trace s ++ EvResize data opt :: t'
    /\ (selects d None /\ EvResize data opt :: t' = []
        /\ Some data' = Some data
        \/ exists m0,
             selects d (Some m0)
             /\ match imgconv_Resize data (ResizeOption_of_mode m0) with
                | Panic _ =>
                    EvResize data opt :: t'
                    = [EvResize data (ResizeOption_of_mode m0)]
                    /\ Some data' = Some data
                | Ret None =>
                    EvResize data opt :: t'
                    = [EvResize data (ResizeOption_of_mode m0)]
                    /\ Some data' = None
                | Ret (Some mark) =>
                    Some data' = Some mark
                    /\ exists t0,
                         EvResize data opt :: t'
                         = EvResize data (ResizeOption_of_mode m0) :: t0
                         /\ saveInternal_trace
                              (resolved_fileLocationPath gen v d) (Some mark)
                              (Generator.PreferredFormat gen) t0
                end)
    /\ heap (extend s2 w t') = <[l := Image.set_ImageData v (Some data')]>
                                 (heap s)).
  { split; [|split; [|done]].
    - cbn. by rewrite <- app_assoc.
    - right. exists m. split; [done|]. fold opt. rewrite Hresize.
      split; [done|]. by exists t'. }
  assert (Hl3 : heap (extend s2 w t') !! l = Some v2) by done.
  destruct res as [[e|]|r].
  - exists (failure (Image.Path v)
              (Errorf_error "failed to write image: %v" e)),
      (extend s2 w t'), (EvResize data opt :: t'), (Some data').
    cbn [Generate_loop]. unfold GetProcessedImage, bind.
    rewrite Hct, Hassign. cbn [snd]. rewrite Hsave.
    by rewrite (failed_result_run l v2 _ _ Hl3).
  - eexists _, (extend s2 w t'), (EvResize data opt :: t'), (Some data').
    cbn [Generate_loop]. unfold GetProcessedImage, bind.
    rewrite Hct, Hassign. cbn [snd]. rewrite Hsave.
    split; [done|]. done.
  - exists (failure (Image.Path v)
              (Errorf_panic "recovered from panic: %v" r)),
      (extend s2 w t'), (EvResize data opt :: t'), (Some data').
    cbn [Generate_loop]. unfold GetProcessedImage, bind.
    rewrite Hct, Hassign. cbn [snd]. rewrite Hsave.
    by rewrite (failed_result_run l v2 _ _ Hl3).
Qed.

(** The whole loop on an image that is not nil: it returns, and its trace
    is the trace of the passes. *)
Lemma Generate_loop_passes gen l (formats : list ImageDimension) :
  forall (result : list GenerationResult) s v,
    heap s !! l = Some v ->
    exists (rs : list GenerationResult) (s' : State) (t : list Event)
           (final : image_Image),
      Generate_loop gen (Some l) formats result s = (Ret (result ++ rs), s')
      /\ trace s' = trace s ++ t
      /\ run_trace gen v formats t final
      /\ heap s' = <[l := Image.set_ImageData v final]> (heap s).
Proof.
  induction formats as [|d ds IH]; intros result s v Hl.
  - exists [], s, [], (Image.ImageData v). cbn. rewrite !app_nil_r.
    by rewrite set_ImageData_same, list_insert_id.
  - destruct (Generate_loop_pass gen l v d s Hl)
      as (r0 & s3 & t1 & data' & Hstep & Htrace3 & Hpass & Hheap3).
    set (v3 := Image.set_ImageData v data').
    assert (Hl3 : heap s3 !! l = Some v3).
    { rewrite Hheap3. apply list_lookup_insert_eq. by eapply lookup_lt_Some. }
    destruct (IH (result ++ [r0]) s3 v3 Hl3)
      as (rs & s' & t2 & final & Hrun & Htrace & Hrest & Hheap).
    exists (r0 :: rs), s', (t1 ++ t2), final.
    split; [|split; [|split]].
    + rewrite Hstep, Hrun. by rewrite <- app_assoc.
    + rewrite Htrace, Htrace3. by rewrite app_assoc.
    + cbn. by exists t1, t2, data'.
    + by rewrite Hheap, Hheap3, list_insert_insert_eq.
Qed.

(** C7: one [Generate] call makes its resizes in a chain. On an image that
    is not nil it returns, and the calls it made are those of one pass per
    specification, in order, each pass on the image as the pass before it
    left it: a specification that selects a mode has its resize called on
    the pixel data the image holds then; a resize that returns replaces the
    pixel data of the caller's [Image] by its result, and a result that is
    not nil is written; so the resize of a later specification works on the
    output of the last resize that returned before it, not on the source
    pixels. When [Generate] returns, the caller's [Image] holds the output of
    the last resize that returned, and its original pixel data when no resize
    returned. On a nil image nothing is resized and nothing changed. *)
Theorem Generate_resizes_in_a_chain gen s :
  snd (Generate gen None s) = s
  /\ forall l v,
       heap s !! l = Some v ->
       exists (r : list GenerationResult * error_result) (s' : State)
              (t : list Event) (final : image_Image),
         Generate gen (Some l) s = (Ret r, s')
         /\ trace s' = trace s ++ t
         /\ run_trace gen v (Generator.OutputFormats gen) t final
         /\ heap s' = <[l := Image.set_ImageData v final]> (heap s)
         /\ heap s' !! l = Some (Image.set_ImageData v final)
         /\ (forall t1 (base : Pixels) opt t2 (mark : image_Image),
                t = t1 ++ EvResize base opt :: t2 ->
                imgconv_Resize base opt = Ret mark ->
                Forall no_return (resizes t2) ->
                data_after (Image.ImageData v) t1 = Some base
                /\ final = mark)
         /\ (Forall no_return (resizes t) -> final = Image.ImageData v).
Proof.
  split.
  { unfold Generate.
    destruct (Generator.OutputFormats gen) as [|d ds]; done. }
  intros l v Hl.
  assert (Hgen : exists (r : list GenerationResult * error_result)
                        (s' : State) (t : list Event) (final : image_Image),
    Generate gen (Some l) s = (Ret r, s')
    /\ trace s' = trace s ++ t
    /\ run_trace gen v (Generator.OutputFormats gen) t final
    /\ heap s' = <[l := Image.set_ImageData v final]> (heap s)).
  { unfold Generate.
    destruct (Generator.OutputFormats gen) as [|d ds] eqn:Hfs.
    - exists ([], Some ErrInvalidNoTransformProvided), s, [],
        (Image.ImageData v).
      cbn. rewrite app_nil_r, set_ImageData_same, list_insert_id by done.
      done.
    - cbn [length Nat.eqb]. unfold bind.
      destruct (Generate_loop_passes gen l (d :: ds) [] s v Hl)
        as (rs & s' & t & final & -> & Htrace & Hrun & Hheap).
      by exists (rs, None), s', t, final. }
  destruct Hgen as (r & s' & t & final & Hrun & Htrace & Hpasses & Hheap).
  exists r, s', t, final. repeat (split; [done|]).
  destruct (run_trace_data _ _ _ _ _ Hpasses) as [Hfinal Hop].
  split; [|split].
  - rewrite Hheap. apply list_lookup_insert_eq. by eapply lookup_lt_Some.
  - intros t1 base opt t2 mark -> Hmark Hlast.
    apply operates_on_app in Hop as [_ [Hbase _]].
    split; [done|].
    rewrite Hfinal, data_after_app. cbn. rewrite Hbase.
    unfold after_resize. rewrite Hmark. by apply data_after_no_return.
  - intros Hnone. rewrite Hfinal. by apply data_after_no_return.
Qed.

(** ** The claims about saving *)

(** C6 (as the code has it): [saveInternal] makes a first write attempt. If
    it fails with a [*fs.PathError], the class of error a missing destination
    directory gives, the directory of the output path is created with
    [MkdirAll] and the mode [0755] ([rwxr-xr-x]), whatever that call answers
    the write is attempted a second time, and the nil or the
    [*fs.PathError] of the second attempt is returned as it is. A run never
    makes more than two write attempts and one directory creation, all for
    the same output path. *)
Theorem saveInternal_retries_once (output : string) (base : image_Image)
    (opt : imgconv.FormatOption.t) s :
  (exists w t,
      snd (saveInternal output base opt s) = extend s w t
      /\ (1 <= length (saves t) <= 2)%nat /\ (length (mkdirs t) <= 1)%nat
      /\ Forall (eq output) (saves t)
      /\ Forall (eq (filepath.Dir output, mode_0755)) (mkdirs t))
  /\ (forall w1,
        imgconv_Save output base opt (world s) = (Ret None, w1) ->
        saveInternal output base opt s
        = (Ret None, extend s w1 [attempt output base opt]))
  /\ (forall pe w1 m w2 r2 w3,
        imgconv_Save output base opt (world s)
        = (Ret (Some (PathErrorPtr (Some pe))), w1) ->
        os_MkdirAll (filepath.Dir output) mode_0755 w1 = (Ret m, w2) ->
        imgconv_Save output base opt w2 = (Ret r2, w3) ->
        r2 = None \/ (exists p, r2 = Some (PathErrorPtr p)) ->
        saveInternal output base opt s
        = (Ret r2,
           extend s w3 [attempt output base opt; creation output;
                        attempt output base opt]))
  /\ map (N.testbit mode_0755) [8; 7; 6; 5; 4; 3; 2; 1; 0]%N
     = [true; true; true; true; false; true; true; false; true].
Proof.
  split; [|split; [|split]].
  - destruct (saveInternal_effects output base opt s) as (w & t & Hs & Ht).
    exists w, t. split; [done|].
    destruct Ht as [->|[->| ->]]; cbn; repeat split; try lia;
      repeat constructor.
  - intros w1 H1. by rewrite saveInternal_run, H1.
  - intros pe w1 m w2 r2 w3 H1 Hm H2 Hr2.
    rewrite saveInternal_run, H1, Hm. cbv zeta. rewrite H2.
    by destruct Hr2 as [->|[p ->]].
  - reflexivity.
Qed.

(** What [saveInternal] does with an error of another dynamic type: the
    type assertion panics. *)
Lemma saveInternal_foreign_error (output : string) (base : image_Image)
    (opt : imgconv.FormatOption.t) s (e : error) w1 :
  imgconv_Save output base opt (world s) = (Ret (Some e), w1) ->
  (forall p, e <> PathErrorPtr p) ->
  saveInternal output base opt s
  = (Panic (TypeAssertionError e), extend s w1 [attempt output base opt]).
Proof.
  intros H1 He. rewrite saveInternal_run, H1.
  destruct e as [ | p | | | ]; try done. by destruct (He p).
Qed.

Lemma SaveWithDimension_success gen l v d s (res : GenerationResult) s' :
  heap s !! l = Some v ->
  SaveWithDimension gen (Some l) (Some d) s = (Ret (res, None), s') ->
  res = {| GenerationResult.Filename := resolved_basefileName v d;
           GenerationResult.Path := resolved_destpath d;
           GenerationResult.Error := None |}
  /\ heap s' = heap s
  /\ exists t,
       trace s' = trace s ++ t /\ saves t <> []
       /\ Forall (eq (resolved_fileLocationPath gen v d)) (saves t).
Proof.
  intros Hl Hrun.
  destruct (Image.ImageData v) as [data|] eqn:Hdata.
  2:{ by rewrite (SaveWithDimension_no_data gen l v d s Hl Hdata) in Hrun. }
  rewrite (SaveWithDimension_run gen l v data d s Hl Hdata) in Hrun.
  destruct (saveInternal_effects (resolved_fileLocationPath gen v d)
              (Some data) (Generator.PreferredFormat gen) s)
    as (w & t & Hs & Ht).
  apply saveInternal_trace_facts in Ht as (Hne & Hall & _).
  destruct (saveInternal _ _ _ s) as [[[e|]|r] s1]; try done.
  injection Hrun as <- <-. cbn [snd] in Hs. subst s1.
  split; [done|]. split; [done|]. by exists t.
Qed.

(** C2 (as the code has it): after a successful [SaveWithDimension], the
    [Filename] of the result is the resolved base file name without the
    prefix; a non-empty destination override is returned as it is in the
    [Path] of the result; and with an empty override every write attempt,
    of which there is at least one, goes to the generator's destination
    directory joined with the prefix followed by the file name. *)
Theorem SaveWithDimension_destination gen l v d s
    (res : GenerationResult) s' :
  heap s !! l = Some v ->
  SaveWithDimension gen (Some l) (Some d) s = (Ret (res, None), s') ->
  GenerationResult.Filename res = resolved_basefileName v d
  /\ (ImageDimension.DestinationOverride d <> "" ->
      GenerationResult.Path res = ImageDimension.DestinationOverride d)
  /\ (ImageDimension.DestinationOverride d = "" ->
      exists t,
        trace s' = trace s ++ t /\ saves t <> []
        /\ Forall
             (eq (filepath.Join
                    [Generator.DestinationPath gen;
                     resolved_prefix gen d +:+ resolved_basefileName v d]))
             (saves t)).
Proof.
  intros Hl Hrun.
  destruct (SaveWithDimension_success gen l v d s res s' Hl Hrun)
    as (-> & _ & t & Htrace & Hne & Hall).
  split; [done|]. split.
  - intros Ho. cbn. unfold resolved_destpath.
    apply len_positive in Ho. by rewrite Ho.
  - intros Ho. exists t. split; [done|]. split; [done|].
    unfold resolved_fileLocationPath, resolved_directoryPath in Hall.
    apply len_zero in Ho. by rewrite Ho in Hall.
Qed.

(** C10 (as the code has it): after a successful [SaveWithDimension], the
    [Path] of the result is the destination override when that is not empty
    and the empty string otherwise, and every write attempt, of which there
    is at least one, goes to the join of the directory (the generator's
    [DestinationPath] when the override is empty, the empty directory
    otherwise) with the prefix followed by the base file name. So the
    reported [Path] is the place written to only when the override itself is
    that place, and never when the override is empty. *)
Theorem SaveWithDimension_reported_path gen l v d s
    (res : GenerationResult) s' :
  heap s !! l = Some v ->
  SaveWithDimension gen (Some l) (Some d) s = (Ret (res, None), s') ->
  let written :=
    filepath.Join
      [if (ImageDimension.DestinationOverride d =? "")%string
       then Generator.DestinationPath gen else "";
       resolved_prefix gen d +:+ resolved_basefileName v d] in
  GenerationResult.Path res
  = (if (ImageDimension.DestinationOverride d =? "")%string
     then "" else ImageDimension.DestinationOverride d)
  /\ (exists t,
        trace s' = trace s ++ t /\ saves t <> []
        /\ Forall (eq written) (saves t))
  /\ (GenerationResult.Path res = written
      <-> ImageDimension.DestinationOverride d = written)
  /\ (ImageDimension.DestinationOverride d = "" ->
      GenerationResult.Path res <> written).
Proof.
  intros Hl Hrun written.
  destruct (SaveWithDimension_success gen l v d s res s' Hl Hrun)
    as (-> & _ & t & Htrace & Hne & Hall).
  assert (Hwritten : written <> "").
  { apply Join_nonempty, append_nonempty_r.
    unfold resolved_basefileName.
    destruct (0 <? len _)%nat; apply Base_nonempty. }
  assert (Hloc : resolved_fileLocationPath gen v d = written).
  { unfold resolved_fileLocationPath, resolved_directoryPath, written.
    by destruct (ImageDimension.DestinationOverride d). }
  rewrite Hloc in Hall. cbn [GenerationResult.Path].
  unfold resolved_destpath.
  destruct (ImageDimension.DestinationOverride d) as [|c o] eqn:Ho; cbn.
  - split; [done|]. split; [by exists t|]. split; [done|].
    intros _ Heq. by apply Hwritten.
  - split; [done|]. split; [by exists t|]. split; done.
Qed.

(** ** [Save] and [SaveRaw] *)

Lemma Save_run gen l v (data : Pixels) s :
  heap s !! l = Some v -> Image.ImageData v = Some data ->
  Save gen (Some l) s =
  match saveInternal (Save_destpath gen v) (Some data)
          (Generator.PreferredFormat gen) s with
  | (Ret None, s') =>
      (Ret ({| GenerationResult.Filename := Save_basefileName gen v;
               GenerationResult.Path := Save_destpath gen v;
               GenerationResult.Error := None |}, None), s')
  | (Ret (Some e), s') =>
      (Ret (GenerationResult.zero,
            Some (Errorf_error "failed to write image: %v" e)), s')
  | (Panic r, s') =>
      (Ret (GenerationResult.zero,
            Some (Errorf_panic "recovered from panic: %v" r)), s')
  end.
Proof.
  intros Hl Hdata. unfold Save, recovered, bind, load, ret.
  rewrite Hl, Hdata. unfold Save_destpath, Save_basefileName.
  by destruct (saveInternal _ _ _ s) as [[[e|]|r] s'].
Qed.

Lemma SaveRaw_run (data : Pixels) (path : string)
    (format : imgconv.FormatOption.t) s :
  path <> "" ->
  SaveRaw (Some data) path format s =
  match imgconv_Save path (Some data) format (world s) with
  | (Ret None, w1) =>
      (Ret ({| GenerationResult.Filename := filepath.Base path;
               GenerationResult.Path := path;
               GenerationResult.Error := None |}, None),
       extend s w1 [EvSave path (Some data) format])
  | (Ret (Some e), w1) =>
      (Ret (GenerationResult.zero,
            Some (Errorf_error "failed to write image: %v" e)),
       extend s w1 [EvSave path (Some data) format])
  | (Panic r, w1) =>
      (Ret (GenerationResult.zero,
            Some (Errorf_panic "recovered from panic: %v" r)),
       extend s w1 [EvSave path (Some data) format])
  end.
Proof.
  intros Hpath. unfold SaveRaw, recovered, bind, ret, call_Save, emit,
    in_world, bind, ret, extend.
  destruct path as [|c path]; [done|]. cbn.
  by destruct (imgconv_Save _ _ _ (world s)) as [[[e|]|r] w1].
Qed.

(** ** Loading with a fallback *)

Lemma ImageFromFile_run (path : string) s :
  ImageFromFile path s =
  match imgconv_Open path (world s) with
  | (Ret (inl src), w1) =>
      (Ret (Some (length (heap s)), None),
       mkState (heap s ++ [loaded path src DefaultThumbnailSize]) w1
               (trace s ++ [EvOpen path]))
  | (Ret (inr e), w1) =>
      (Ret (None, Some e), extend s w1 [EvOpen path])
  | (Panic r, w1) => (Panic r, extend s w1 [EvOpen path])
  end.
Proof.
  unfold ImageFromFile, call_Open, emit, in_world, alloc, bind, ret, extend.
  cbn. by destruct (imgconv_Open path (world s)) as [[[src|e]|r] w1].
Qed.

Lemma assign_TargetDimension_fresh (h : list Image) v (w : World) t
    (size : ImageSize) :
  assign_TargetDimension (Some (length h)) size (mkState (h ++ [v]) w t)
  = (Ret tt, mkState (h ++ [Image.set_TargetDimension v size]) w t).
Proof.
  unfold assign_TargetDimension, deref, load, bind. cbn.
  rewrite lookup_app_r, Nat.sub_diag by done. cbn.
  rewrite insert_app_r_alt, Nat.sub_diag by done. done.
Qed.

(** C8 (as the code has it): when the primary path loads, its image is
    returned and the fallback is not opened; when it fails and a fallback
    path is given, the fallback is opened, and its image is returned if it
    loads; when the fallback fails too, the error of the fallback is
    returned; and when the primary path fails and no fallback is given, the
    error of the primary path is returned. A returned image carries the
    generator's width and height as its target dimension. *)
Theorem NewImageFromFilewWithDefault_fallback gen (path defaultImg : string)
    s :
  (forall src w1,
      imgconv_Open path (world s) = (Ret (inl src), w1) ->
      NewImageFromFilewWithDefault gen path defaultImg s
      = (Ret (Some (length (heap s)), None),
         mkState (heap s ++ [loaded path src (generator_size gen)]) w1
                 (trace s ++ [EvOpen path])))
  /\ (forall (e : error) w1 src w2,
        imgconv_Open path (world s) = (Ret (inr e), w1) ->
        defaultImg <> "" ->
        imgconv_Open defaultImg w1 = (Ret (inl src), w2) ->
        NewImageFromFilewWithDefault gen path defaultImg s
        = (Ret (Some (length (heap s)), None),
           mkState (heap s ++ [loaded defaultImg src (generator_size gen)])
                   w2 (trace s ++ [EvOpen path; EvOpen defaultImg])))
  /\ (forall (e : error) w1 (e' : error) w2,
        imgconv_Open path (world s) = (Ret (inr e), w1) ->
        defaultImg <> "" ->
        imgconv_Open defaultImg w1 = (Ret (inr e'), w2) ->
        NewImageFromFilewWithDefault gen path defaultImg s
        = (Ret (None, Some e'),
           extend s w2 [EvOpen path; EvOpen defaultImg]))
  /\ (forall (e : error) w1,
        imgconv_Open path (world s) = (Ret (inr e), w1) ->
        defaultImg = "" ->
        NewImageFromFilewWithDefault gen path defaultImg s
        = (Ret (None, Some e), extend s w1 [EvOpen path])).
Proof.
  unfold NewImageFromFilewWithDefault, bind.
  rewrite ImageFromFile_run. repeat split.
  - intros src w1 ->. by rewrite assign_TargetDimension_fresh.
  - intros e w1 src w2 -> Hd H2. apply eqb_empty_false in Hd. rewrite Hd.
    cbn [negb]. rewrite ImageFromFile_run. cbn. rewrite H2.
    rewrite assign_TargetDimension_fresh. unfold ret.
    by rewrite <- app_assoc.
  - intros e w1 e' w2 -> Hd H2. apply eqb_empty_false in Hd. rewrite Hd.
    cbn [negb]. rewrite ImageFromFile_run. cbn. rewrite H2.
    unfold ret, extend. cbn. by rewrite <- app_assoc.
  - intros e w1 -> ->. done.
Qed.
End Properties.

(** * The package on the test bed *)

Section OnTheTestBed.
Import TestBed.

Lemma CreateThumbnail_resize_mode_witness :
  exists m : option resize_mode,
    selects width_100 m
    /\ (forall m', selects width_100 m' -> m' = m)
    /\ GetProcessedImage (gen "" []) (Some 0%nat) width_100 start
       = CreateThumbnail (Some 0%nat) width_100 start
    /\ CreateThumbnail (Some 0%nat) width_100 start =
       match m with
       | Some m =>
           resized_with (Decoded "/tmp/c.png") (ResizeOption_of_mode m) start
       | None => (Ret (None, Some ErrInvalidNoTransformProvided), start)
       end.
Proof.
  apply (CreateThumbnail_resize_mode (P := platform) (gen "" []) 0%nat c_png
           (Decoded "/tmp/c.png") width_100 start); reflexivity.
Defined.

Lemma Generate_top_level_error_witness :
  exists rs s',
    Generate (gen "" [nothing_set; nothing_set]) (Some 0%nat) start
    = (Ret (rs, None), s').
Proof.
  apply (proj1 (proj2 (Generate_top_level_error (P := platform)
                         (gen "" [nothing_set; nothing_set])))
           ltac:(discriminate) 0%nat c_png start).
  reflexivity.
Defined.

Lemma Generate_one_result_per_format_witness :
  let g := gen "" [width_100; nothing_set; height_50_override] in
  exists (rs : list GenerationResult) (s' : State),
    Generate g (Some 0%nat) start = (Ret (rs, None), s')
    /\ length rs = 3%nat
    /\ forall (k : nat) d,
         Generator.OutputFormats g !! k = Some d ->
         exists (r : GenerationResult) (sk : State),
           rs !! k = Some r
           /\ Generate_loop g (Some 0%nat)
                (take k (Generator.OutputFormats g)) [] start
              = (Ret (take k rs), sk)
           /\ step_result g 0%nat "/tmp/c.png" d sk r.
Proof.
  intros g.
  apply (Generate_one_result_per_format (P := platform) g 0%nat c_png start).
  - reflexivity.
  - discriminate.
Defined.

Lemma Generate_nil_image_aborts_witness :
  let g := gen "" [width_100; nothing_set] in
  GetProcessedImage g None width_100 start
  = (Ret (None, Some ErrInvalidImageData), start)
  /\ failed_result None ErrInvalidImageData start
     = (Panic NilDereference, start)
  /\ Generate g None start = (Panic NilDereference, start)
  /\ forall (result : list GenerationResult) (err : error_result) s',
       Generate g None start <> (Ret (result, err), s').
Proof.
  intros g.
  apply (Generate_nil_image_aborts (P := platform) g width_100 [nothing_set]
           start).
  reflexivity.
Defined.

Lemma Generate_resizes_in_a_chain_witness :
  let g := gen "" [width_100; nothing_set; height_50_override] in
  exists (r : list GenerationResult * error_result) (s' : State)
         (t : list Event) (final : option pix),
    Generate g (Some 0%nat) start = (Ret r, s')
    /\ trace s' = trace start ++ t
    /\ run_trace g c_png (Generator.OutputFormats g) t final
    /\ heap s' = <[0%nat := Image.set_ImageData c_png final]> (heap start)
    /\ heap s' !! 0%nat = Some (Image.set_ImageData c_png final)
    /\ (forall t1 (base : pix) opt t2 (mark : option pix),
           t = t1 ++ EvResize base opt :: t2 ->
           imgconv_Resize base opt = Ret mark ->
           Forall no_return (resizes t2) ->
           data_after (Image.ImageData c_png) t1 = Some base
           /\ final = mark)
    /\ (Forall no_return (resizes t) -> final = Image.ImageData c_png).
Proof.
  intros g.
  apply (proj2 (Generate_resizes_in_a_chain (P := platform) g start)
           0%nat c_png).
  reflexivity.
Defined.

(** C7, the claim as it is written, fails: the one specification of the
    generator selects no mode, so no resize is made, and when [Generate]
    returns the caller's [Image] still holds its original pixel data. *)
Lemma Generate_keeps_pixel_data_counterexample :
  exists (r : list GenerationResult * error_result) (s' : State),
    Generate (gen "" [nothing_set]) (Some 0%nat) start = (Ret r, s')
    /\ heap start !! 0%nat = Some c_png
    /\ Image.ImageData c_png = Some (Decoded "/tmp/c.png")
    /\ resizes (trace s') = []
    /\ heap s' !! 0%nat = Some c_png.
Proof.
  eexists _, _. split; [reflexivity|]. repeat split; reflexivity.
Qed.

(** The results of that run: the second format fails and has the source
    path, the other two are saved. *)
Example Generate_results_on_the_test_bed :
  fst (Generate (gen "" [width_100; nothing_set; height_50_override])
         (Some 0%nat) start)
  = Ret ([{| GenerationResult.Filename := "c.png";
             GenerationResult.Path := "";
             GenerationResult.Error := None |};
          failure "/tmp/c.png" ErrInvalidNoTransformProvided;
          {| GenerationResult.Filename := "n.png";
             GenerationResult.Path := "/custom/x.jpg";
             GenerationResult.Error := None |}], None).
Proof. reflexivity. Qed.

(** The resize calls of that run: the second one works on the output of the
    first one. *)
Example Generate_chain_on_the_test_bed :
  resizes
    (trace (snd (Generate (gen "" [width_100; nothing_set; height_50_override])
                   (Some 0%nat) start)))
  = [(Decoded "/tmp/c.png", ResizeOption_of_mode (WidthDriven 100));
     (Resized (Decoded "/tmp/c.png") (ResizeOption_of_mode (WidthDriven 100)),
      ResizeOption_of_mode (HeightDriven 50))].
Proof. reflexivity. Qed.

(** The destination directory [/out] does not exist: it is created and the
    second attempt writes the file. *)
Lemma saveInternal_retries_once_witness :
  saveInternal "/out/t_c.png" (Some (Decoded "/tmp/c.png")) jpeg start
  = (Ret None,
     extend start
       (mkfs ["/out"; "."; "/"; "/tmp"; "/ro"] ["/ro"] ["/tmp/c.png"]
             [("/out/t_c.png", Decoded "/tmp/c.png")])
       [attempt "/out/t_c.png" (Some (Decoded "/tmp/c.png")) jpeg;
        creation "/out/t_c.png";
        attempt "/out/t_c.png" (Some (Decoded "/tmp/c.png")) jpeg]).
Proof.
  apply (proj1 (proj2 (proj2
           (saveInternal_retries_once (P := platform) "/out/t_c.png"
              (Some (Decoded "/tmp/c.png")) jpeg start)))
           {| PathError.Op := "open"; PathError.Path := "/out/t_c.png";
              PathError.Err := ENOENT |}
           disk None
           (mkfs ["/out"; "."; "/"; "/tmp"; "/ro"] ["/ro"] ["/tmp/c.png"] [])
           None).
  - reflexivity.
  - reflexivity.
  - reflexivity.
  - by left.
Defined.

(** C6, the claim as it is written, fails: a write refused for lack of
    permission is not a missing directory, and still the directory is
    created and the write attempted a second time; and an error of the
    encoder is not returned at all, [saveInternal] panics on it. *)
Lemma saveInternal_other_failure_counterexample :
  fst (imgconv_Save "/ro/x.jpg" (Some (Decoded "/tmp/c.png")) jpeg disk)
  = Ret (Some (path_error "open" "/ro/x.jpg" EACCES))
  /\ saves (trace (snd (saveInternal "/ro/x.jpg"
                          (Some (Decoded "/tmp/c.png")) jpeg start)))
     = ["/ro/x.jpg"; "/ro/x.jpg"]
  /\ mkdirs (trace (snd (saveInternal "/ro/x.jpg"
                           (Some (Decoded "/tmp/c.png")) jpeg start)))
     = [("/ro", mode_0755)]
  /\ fst (imgconv_Save "x.img" (Some (Decoded "/tmp/c.png")) format_42 disk)
     = Ret (Some (Foreign "image: unknown format"))
  /\ fst (saveInternal "x.img" (Some (Decoded "/tmp/c.png")) format_42 start)
     = Panic (TypeAssertionError (Foreign "image: unknown format"))
  /\ fst (saveInternal "x.img" (Some (Decoded "/tmp/c.png")) format_42 start)
     <> Ret (Some (Foreign "image: unknown format")).
Proof. repeat split; try reflexivity. discriminate. Qed.

Lemma SaveWithDimension_destination_witness :
  let res := {| GenerationResult.Filename := "c.png";
                GenerationResult.Path := "";
                GenerationResult.Error := None |} in
  let s' := snd (SaveWithDimension (gen "" []) (Some 0%nat) (Some width_100)
                   start) in
  GenerationResult.Filename res = resolved_basefileName c_png width_100
  /\ (ImageDimension.DestinationOverride width_100 <> "" ->
      GenerationResult.Path res
      = ImageDimension.DestinationOverride width_100)
  /\ (ImageDimension.DestinationOverride width_100 = "" ->
      exists t,
        trace s' = trace start ++ t /\ saves t <> []
        /\ Forall
             (eq (filepath.Join
                    [Generator.DestinationPath (gen "" []);
                     resolved_prefix (gen "" []) width_100
                     +:+ resolved_basefileName c_png width_100]))
             (saves t)).
Proof.
  intros res s'.
  apply (SaveWithDimension_destination (P := platform) (gen "" []) 0%nat c_png
           width_100 start res s'); reflexivity.
Defined.

(** C2, the claim as it is written, fails: with the destination override
    [/custom/x.jpg] the one write goes to [s_n.png], the empty directory
    joined with prefix and file name, and nothing is written at the
    override; and the [Filename] of the result is [n.png], not the prefix
    followed by the file name. *)
Lemma SaveWithDimension_override_counterexample :
  exists (res : GenerationResult) (s' : State),
    SaveWithDimension (gen "" []) (Some 0%nat) (Some height_50_override) start
    = (Ret (res, None), s')
    /\ ImageDimension.DestinationOverride height_50_override = "/custom/x.jpg"
    /\ saves (trace s') = ["s_n.png"]
    /\ ~ In "/custom/x.jpg" (saves (trace s'))
    /\ GenerationResult.Filename res = "n.png"
    /\ GenerationResult.Filename res
       <> resolved_prefix (gen "" []) height_50_override
          +:+ resolved_basefileName c_png height_50_override.
Proof.
  eexists _, _. split; [reflexivity|].
  repeat split; try reflexivity.
  - cbn. intros [H|[]]. discriminate H.
  - discriminate.
Qed.

Lemma SaveWithDimension_reported_path_witness :
  let res := {| GenerationResult.Filename := "n.png";
                GenerationResult.Path := "/custom/x.jpg";
                GenerationResult.Error := None |} in
  let s' := snd (SaveWithDimension (gen "" []) (Some 0%nat)
                   (Some height_50_override) start) in
  let written := "s_n.png" in
  GenerationResult.Path res = "/custom/x.jpg"
  /\ (exists t,
        trace s' = trace start ++ t /\ saves t <> []
        /\ Forall (eq written) (saves t))
  /\ (GenerationResult.Path res = written
      <-> ImageDimension.DestinationOverride height_50_override = written)
  /\ (ImageDimension.DestinationOverride height_50_override = "" ->
      GenerationResult.Path res <> written).
Proof.
  intros res s'.
  apply (SaveWithDimension_reported_path (P := platform) (gen "" []) 0%nat
           c_png height_50_override start res s'); reflexivity.
Defined.

(** C10, the claim as it is written, fails in its last part: with the
    destination override [t_c.png] the file is written at [t_c.png], and
    that is the [Path] of the result. *)
Lemma SaveWithDimension_reported_path_counterexample :
  exists (res : GenerationResult) (s' : State),
    SaveWithDimension (gen "" []) (Some 0%nat) (Some override_t_c) start
    = (Ret (res, None), s')
    /\ saves (trace s') = ["t_c.png"]
    /\ GenerationResult.Path res = "t_c.png".
Proof. eexists _, _. repeat split; reflexivity. Qed.

(** The panic of the type assertion of [saveInternal], recovered by
    [SaveWithDimension]. *)
Example SaveWithDimension_recovers_type_assertion :
  fst (SaveWithDimension
         {| Generator.Width := 300; Generator.Height := 300;
            Generator.PreferredFormat := format_42;
            Generator.Name := ""; Generator.DestinationPath := "";
            Generator.Prefix := ""; Generator.OutputFormats := [] |}
         (Some 0%nat) (Some width_100) start)
  = Ret (GenerationResult.zero,
         Some (Errorf_panic "recovered from panic: %v"
                 (TypeAssertionError (Foreign "image: unknown format")))).
Proof. reflexivity. Qed.

Lemma NewImageFromFilewWithDefault_fallback_witness :
  NewImageFromFilewWithDefault (gen "" []) "/a.png" "/tmp/c.png" start
  = (Ret (Some 1%nat, None),
     mkState [c_png;
              loaded "/tmp/c.png" (Decoded "/tmp/c.png")
                (generator_size (gen "" []))]
             disk [EvOpen "/a.png"; EvOpen "/tmp/c.png"]).
Proof.
  apply (proj1 (proj2
           (NewImageFromFilewWithDefault_fallback (P := platform) (gen "" [])
              "/a.png" "/tmp/c.png" start))
           (path_error "open" "/a.png" ENOENT) disk (Decoded "/tmp/c.png")
           disk).
  - reflexivity.
  - discriminate.
  - reflexivity.
Defined.

(** C8, the claim as it is written, fails: when the primary path and the
    fallback both fail, the error returned is the one of the fallback. *)
Lemma NewImageFromFilewWithDefault_error_counterexample :
  fst (imgconv_Open "/a.png" disk)
  = Ret (inr (path_error "open" "/a.png" ENOENT))
  /\ fst (NewImageFromFilewWithDefault (gen "" []) "/a.png" "/b.png" start)
     = Ret (None, Some (path_error "open" "/b.png" ENOENT))
  /\ fst (NewImageFromFilewWithDefault (gen "" []) "/a.png" "/b.png" start)
     <> Ret (None, Some (path_error "open" "/a.png" ENOENT)).
Proof. repeat split; try reflexivity. discriminate. Qed.

(** C1: with only the generator's default name [b.png] set,
    [SaveWithDimension] resolves the base name of the source path, [c.png],
    where [Save] resolves [b.png]; so do the results of [Generate]. *)
Theorem SaveWithDimension_ignores_default_name :
  let g := NewGenerator (gen "b.png" []) [width_100] in
  Generator.Name g = "b.png"
  /\ ImageDimension.Name width_100 = ""
  /\ fst (SaveWithDimension g (Some 0%nat) (Some width_100) start)
     = Ret ({| GenerationResult.Filename := "c.png";
               GenerationResult.Path := "";
               GenerationResult.Error := None |}, None)
  /\ saves (trace (snd (SaveWithDimension g (Some 0%nat) (Some width_100)
                          start)))
     = ["/out/t_c.png"; "/out/t_c.png"]
  /\ fst (Generate g (Some 0%nat) start)
     = Ret ([{| GenerationResult.Filename := "c.png";
                GenerationResult.Path := "";
                GenerationResult.Error := None |}], None)
  /\ fst (Save g (Some 0%nat) start)
     = Ret ({| GenerationResult.Filename := "b.png";
               GenerationResult.Path := "/out/t_b.png";
               GenerationResult.Error := None |}, None).
Proof. repeat split; reflexivity. Qed.

End OnTheTestBed.

(** * More of the package *)

Section MoreProperties.
Context `{P : Platform}.

Implicit Types (s : State) (l : nat) (v : Image) (gen : Generator).
Implicit Types (d : ImageDimension) (t : list Event).

(** ** What a call leaves alone *)

Lemma state_same s : mkState (heap s) (world s) (trace s ++ []) = s.
Proof. destruct s. cbn. by rewrite app_nil_r. Qed.

Lemma extend_nil s : extend s (world s) [] = s.
Proof. apply state_same. Qed.

Lemma opens_app t1 t2 : opens (t1 ++ t2) = opens t1 ++ opens t2.
Proof. apply omap_app. Qed.

Lemma resizes_app t1 t2 : resizes (t1 ++ t2) = resizes t1 ++ resizes t2.
Proof. apply omap_app. Qed.

(** The runs of [CreateThumbnail], for any pointer: it returns, it leaves
    heap and world alone, and it traces nothing or one resize. *)
Lemma CreateThumbnail_frame (i : ImagePtr) d s :
  exists (img : image_Image) (err : error_result) t,
    CreateThumbnail i d s
    = (Ret (img, err), mkState (heap s) (world s) (trace s ++ t))
    /\ (t = []
        \/ exists l v (base : Pixels) opt,
             t = [EvResize base opt] /\ i = Some l
             /\ heap s !! l = Some v /\ Image.ImageData v = Some base)
    /\ match err with Some _ => img = None | None => t <> [] end.
Proof.
  destruct i as [l|].
  2:{ exists None, (Some ErrInvalidImageData), [].
      unfold CreateThumbnail, recovered, ret. rewrite state_same. eauto. }
  destruct (heap s !! l) as [v|] eqn:Hl.
  2:{ eexists None, _, [].
      unfold CreateThumbnail, recovered, bind, load. rewrite Hl, state_same.
      eauto. }
  destruct (Image.ImageData v) as [data|] eqn:Hdata.
  2:{ exists None, (Some ErrInvalidImageData), [].
      rewrite (CreateThumbnail_no_data l v d s Hl Hdata), state_same.
      eauto. }
  destruct (selects_total d) as [[m|] Hm];
    rewrite (CreateThumbnail_run l v data d _ s Hl Hdata Hm).
  - unfold resized_with.
    destruct (imgconv_Resize data (ResizeOption_of_mode m)) as [mark|r].
    + exists mark, None, [EvResize data (ResizeOption_of_mode m)].
      split; [done|]. split; [|done]. right. by eexists l, v, data, _.
    + eexists None, _, [EvResize data (ResizeOption_of_mode m)].
      split; [done|]. split; [|done]. right. by eexists l, v, data, _.
  - exists None, (Some ErrInvalidNoTransformProvided), [].
    rewrite state_same. eauto.
Qed.

(** The runs of [SaveWithDimension], for any pointers: it returns, it leaves
    the heap alone, and it traces nothing or a run of [saveInternal]. *)
Lemma SaveWithDimension_frame gen (i : ImagePtr)
    (imgConf : option ImageDimension) s :
  exists (res : GenerationResult) (err : error_result) w t,
    SaveWithDimension gen i imgConf s = (Ret (res, err), extend s w t)
    /\ (t = [] \/ exists output base opt, saveInternal_trace output base opt t)
    /\ match err with
       | Some _ => res = GenerationResult.zero
       | None =>
           GenerationResult.Error res = None
           /\ GenerationResult.Filename res <> ""
       end.
Proof.
  destruct i as [l|].
  2:{ exists GenerationResult.zero, (Some ErrInvalidImageData), (world s), [].
      unfold SaveWithDimension, recovered, ret. rewrite extend_nil. eauto. }
  destruct (heap s !! l) as [v|] eqn:Hl.
  2:{ eexists GenerationResult.zero, _, (world s), [].
      unfold SaveWithDimension, recovered, bind, load.
      rewrite Hl, extend_nil. eauto. }
  destruct (Image.ImageData v) as [data|] eqn:Hdata.
  2:{ exists GenerationResult.zero, (Some ErrInvalidImageData), (world s), [].
      unfold SaveWithDimension, recovered, bind, load, ret.
      rewrite Hl, Hdata, extend_nil. eauto. }
  destruct imgConf as [d|].
  2:{ exists GenerationResult.zero, (Some ErrInvalidImageData), (world s), [].
      unfold SaveWithDimension, recovered, bind, load, ret.
      rewrite Hl, Hdata, extend_nil. eauto. }
  rewrite (SaveWithDimension_run gen l v data d s Hl Hdata).
  destruct (saveInternal_effects (resolved_fileLocationPath gen v d)
              (Some data) (Generator.PreferredFormat gen) s)
    as (w & t & Hs & Ht).
  destruct (saveInternal _ _ _ s) as [[[e|]|r] s1]; cbn [snd] in Hs; subst s1.
  - eexists _, _, w, t. split; [done|]. split; [|done]. right. by eauto.
  - eexists _, _, w, t. split; [done|]. split; [right; by eauto|].
    split; [done|]. cbn. unfold resolved_basefileName.
    destruct (0 <? len _)%nat; apply Base_nonempty.
  - eexists _, _, w, t. split; [done|]. split; [|done]. right. by eauto.
Qed.

Lemma Save_frame gen (i : ImagePtr) s :
  exists (res : GenerationResult) (err : error_result) w t,
    Save gen i s = (Ret (res, err), extend s w t)
    /\ (t = [] \/ exists output base opt, saveInternal_trace output base opt t)
    /\ match err with
       | Some _ => res = GenerationResult.zero
       | None =>
           GenerationResult.Error res = None
           /\ GenerationResult.Filename res <> ""
       end.
Proof.
  destruct i as [l|].
  2:{ exists GenerationResult.zero, (Some ErrInvalidImageData), (world s), [].
      unfold Save, recovered, ret. rewrite extend_nil. eauto. }
  destruct (heap s !! l) as [v|] eqn:Hl.
  2:{ eexists GenerationResult.zero, _, (world s), [].
      unfold Save, recovered, bind, load. rewrite Hl, extend_nil. eauto. }
  destruct (Image.ImageData v) as [data|] eqn:Hdata.
  2:{ exists GenerationResult.zero, (Some ErrInvalidImageData), (world s), [].
      unfold Save, recovered, bind, load, ret.
      rewrite Hl, Hdata, extend_nil. eauto. }
  rewrite (Save_run gen l v data s Hl Hdata).
  destruct (saveInternal_effects (Save_destpath gen v)
              (Some data) (Generator.PreferredFormat gen) s)
    as (w & t & Hs & Ht).
  destruct (saveInternal _ _ _ s) as [[[e|]|r] s1]; cbn [snd] in Hs; subst s1.
  - eexists _, _, w, t. split; [done|]. split; [|done]. right. by eauto.
  - eexists _, _, w, t. split; [done|]. split; [right; by eauto|].
    split; [done|]. cbn. unfold Save_basefileName.
    destruct (0 <? len (Generator.Name gen))%nat eqn:Hn.
    + by apply len_positive.
    + apply Base_nonempty.
  - eexists _, _, w, t. split; [done|]. split; [|done]. right. by eauto.
Qed.

Lemma SaveRaw_frame (i : image_Image) (path : string)
    (format : imgconv.FormatOption.t) s :
  exists (res : GenerationResult) (err : error_result) w t,
    SaveRaw i path format s = (Ret (res, err), extend s w t)
    /\ (t = [] \/ t = [EvSave path i format])
    /\ match err with
       | Some _ => res = GenerationResult.zero
       | None =>
           GenerationResult.Error res = None
           /\ GenerationResult.Filename res <> ""
       end.
Proof.
  destruct i as [data|].
  2:{ exists GenerationResult.zero, (Some ErrInvalidImageData), (world s), [].
      unfold SaveRaw, recovered, ret. rewrite extend_nil. eauto. }
  destruct (decide (path = "")) as [->|Hpath].
  { exists GenerationResult.zero, (Some ErrInvalidImageData), (world s), [].
    unfold SaveRaw, recovered, ret. cbn. rewrite extend_nil. eauto. }
  rewrite (SaveRaw_run data path format s Hpath).
  destruct (imgconv_Save path (Some data) format (world s))
    as [[[e|]|r] w1].
  - eexists _, _, w1, _. split; [done|]. split; [by right|done].
  - eexists _, _, w1, _. split; [done|]. split; [by right|].
    split; [done|]. apply Base_nonempty.
  - eexists _, _, w1, _. split; [done|]. split; [by right|done].
Qed.

(** ** Saving *)

(** X1: after a successful [Save] the [Filename] of the result is the
    generator's [Name] as it is when that is not empty and the base name of
    the image path otherwise, the [Path] is the destination directory
    joined with the prefix followed by that file name, and every write
    attempt, of which there is at least one, goes to that [Path]: [Save]
    reports the place it wrote to. *)
Theorem Save_reports_where_it_wrote gen l v s (res : GenerationResult) s' :
  heap s !! l = Some v ->
  Save gen (Some l) s = (Ret (res, None), s') ->
  (Generator.Name gen <> "" ->
   GenerationResult.Filename res = Generator.Name gen)
  /\ (Generator.Name gen = "" ->
      GenerationResult.Filename res = filepath.Base (Image.Path v))
  /\ GenerationResult.Path res
     = filepath.Join [Generator.DestinationPath gen;
                      Generator.Prefix gen +:+ GenerationResult.Filename res]
  /\ heap s' = heap s
  /\ exists t,
       trace s' = trace s ++ t /\ saves t <> []
       /\ Forall (eq (GenerationResult.Path res)) (saves t).
Proof.
  intros Hl Hrun.
  destruct (Image.ImageData v) as [data|] eqn:Hdata.
  2:{ unfold Save, recovered, bind, load, ret in Hrun.
      by rewrite Hl, Hdata in Hrun. }
  rewrite (Save_run gen l v data s Hl Hdata) in Hrun.
  destruct (saveInternal_effects (Save_destpath gen v) (Some data)
              (Generator.PreferredFormat gen) s) as (w & t & Hs & Ht).
  apply saveInternal_trace_facts in Ht as (Hne & Hall & _).
  destruct (saveInternal _ _ _ s) as [[[e|]|r] s1]; try done.
  injection Hrun as <- <-. cbn [snd] in Hs. subst s1. cbn.
  unfold Save_basefileName.
  split; [|split; [|split; [done|split; [done|by exists t]]]].
  - intros Hn. apply len_positive in Hn. by rewrite Hn.
  - intros Hn. apply len_zero in Hn. by rewrite Hn.
Qed.

(** X2: an image pointer that is nil, an image without pixel data and, for
    [SaveWithDimension], a nil specification are refused with
    [ErrInvalidImageData] by [CreateThumbnail], [Save] and
    [SaveWithDimension], before anything is done: the state is unchanged. *)
Theorem missing_pixel_data_is_refused gen d
    (imgConf : option ImageDimension) s :
  (CreateThumbnail None d s = (Ret (None, Some ErrInvalidImageData), s)
   /\ Save gen None s
      = (Ret (GenerationResult.zero, Some ErrInvalidImageData), s)
   /\ SaveWithDimension gen None imgConf s
      = (Ret (GenerationResult.zero, Some ErrInvalidImageData), s))
  /\ (forall l v,
        heap s !! l = Some v -> Image.ImageData v = None ->
        CreateThumbnail (Some l) d s
        = (Ret (None, Some ErrInvalidImageData), s)
        /\ Save gen (Some l) s
           = (Ret (GenerationResult.zero, Some ErrInvalidImageData), s)
        /\ SaveWithDimension gen (Some l) imgConf s
           = (Ret (GenerationResult.zero, Some ErrInvalidImageData), s))
  /\ (forall l v,
        heap s !! l = Some v ->
        SaveWithDimension gen (Some l) None s
        = (Ret (GenerationResult.zero, Some ErrInvalidImageData), s)).
Proof.
  split; [done|]. split.
  - intros l v Hl Hdata.
    unfold CreateThumbnail, Save, SaveWithDimension, recovered, bind, load,
      ret.
    by rewrite Hl, Hdata.
  - intros l v Hl.
    unfold SaveWithDimension, recovered, bind, load, ret. rewrite Hl.
    by destruct (Image.ImageData v).
Qed.

(** X3: [SaveRaw] refuses a nil image and an empty path with
    [ErrInvalidImageData] without a write; otherwise it makes exactly one
    write attempt, at [path] as it is, and never creates a directory or
    tries again; when it succeeds that attempt succeeded and the result has
    the base name of [path] and [path]; a failed attempt comes back wrapped
    in "failed to write image". *)
Theorem SaveRaw_writes_once (i : image_Image) (path : string)
    (format : imgconv.FormatOption.t) s :
  (i = None \/ path = "" ->
   SaveRaw i path format s
   = (Ret (GenerationResult.zero, Some ErrInvalidImageData), s))
  /\ (i <> None -> path <> "" ->
      snd (SaveRaw i path format s)
      = extend s (snd (imgconv_Save path i format (world s)))
          [EvSave path i format]
      /\ match fst (imgconv_Save path i format (world s)) with
         | Ret None =>
             fst (SaveRaw i path format s)
             = Ret ({| GenerationResult.Filename := filepath.Base path;
                       GenerationResult.Path := path;
                       GenerationResult.Error := None |}, None)
         | Ret (Some e) =>
             fst (SaveRaw i path format s)
             = Ret (GenerationResult.zero,
                    Some (Errorf_error "failed to write image: %v" e))
         | Panic r =>
             fst (SaveRaw i path format s)
             = Ret (GenerationResult.zero,
                    Some (Errorf_panic "recovered from panic: %v" r))
         end).
Proof.
  split.
  - intros [->| ->]; [done|].
    unfold SaveRaw, recovered, ret. by destruct i.
  - intros Hi Hpath. destruct i as [data|]; [|done].
    rewrite (SaveRaw_run data path format s Hpath).
    by destruct (imgconv_Save path (Some data) format (world s))
      as [[[e|]|r] w1].
Qed.

(** X4: [CreateThumbnail] changes neither the image nor the world: it
    returns with the heap and the world it was given, and the only call it
    can make is one resize, of the pixel data the image holds. *)
Theorem CreateThumbnail_only_resizes (i : ImagePtr) d s :
  exists t,
    snd (CreateThumbnail i d s)
    = mkState (heap s) (world s) (trace s ++ t)
    /\ (t = []
        \/ exists l v (base : Pixels) opt,
             t = [EvResize base opt] /\ i = Some l
             /\ heap s !! l = Some v /\ Image.ImageData v = Some base).
Proof.
  destruct (CreateThumbnail_frame i d s) as (img & err & t & -> & Ht & _).
  by exists t.
Qed.

(** X5: [Save], [SaveWithDimension] and [SaveRaw] leave the heap, and so
    the image, as it is, and never resize or open anything: what they trace
    is at most two write attempts and one directory creation, for [SaveRaw]
    at most one write attempt and no directory creation. *)
Theorem save_entry_points_keep_the_heap gen (i : ImagePtr)
    (imgConf : option ImageDimension) (raw : image_Image) (path : string)
    (format : imgconv.FormatOption.t) s :
  (exists w t,
      snd (Save gen i s) = extend s w t
      /\ resizes t = [] /\ opens t = []
      /\ (length (saves t) <= 2)%nat /\ (length (mkdirs t) <= 1)%nat)
  /\ (exists w t,
        snd (SaveWithDimension gen i imgConf s) = extend s w t
        /\ resizes t = [] /\ opens t = []
        /\ (length (saves t) <= 2)%nat /\ (length (mkdirs t) <= 1)%nat)
  /\ (exists w t,
        snd (SaveRaw raw path format s) = extend s w t
        /\ resizes t = [] /\ opens t = []
        /\ (length (saves t) <= 1)%nat /\ mkdirs t = []).
Proof.
  split; [|split].
  - destruct (Save_frame gen i s) as (res & err & w & t & -> & Ht & _).
    exists w, t. split; [done|].
    destruct Ht as [->|(o & b & f & [->|[->| ->]])]; cbn; repeat split; lia.
  - destruct (SaveWithDimension_frame gen i imgConf s)
      as (res & err & w & t & -> & Ht & _).
    exists w, t. split; [done|].
    destruct Ht as [->|(o & b & f & [->|[->| ->]])]; cbn; repeat split; lia.
  - destruct (SaveRaw_frame raw path format s)
      as (res & err & w & t & -> & Ht & _).
    exists w, t. split; [done|].
    destruct Ht as [->| ->]; cbn; repeat split; lia.
Qed.

(** X6: whenever one of the four entry points returns, it returns a result
    or an error, never both: with a non-nil error the image of
    [CreateThumbnail] is nil and the result of [Save], [SaveWithDimension]
    and [SaveRaw] is the zero [GenerationResult]; with a nil error the result
    of a save has a nil [Error] and a [Filename] that is not empty. *)
Theorem returned_error_means_zero_result gen (i : ImagePtr) d
    (imgConf : option ImageDimension) (raw : image_Image) (path : string)
    (format : imgconv.FormatOption.t) s :
  (forall (img : image_Image) (err : error_result) s',
      CreateThumbnail i d s = (Ret (img, err), s') ->
      match err with Some _ => img = None | None => True end)
  /\ (forall (res : GenerationResult) (err : error_result) s',
        Save gen i s = (Ret (res, err), s') ->
        match err with
        | Some _ => res = GenerationResult.zero
        | None =>
            GenerationResult.Error res = None
            /\ GenerationResult.Filename res <> ""
        end)
  /\ (forall (res : GenerationResult) (err : error_result) s',
        SaveWithDimension gen i imgConf s = (Ret (res, err), s') ->
        match err with
        | Some _ => res = GenerationResult.zero
        | None =>
            GenerationResult.Error res = None
            /\ GenerationResult.Filename res <> ""
        end)
  /\ (forall (res : GenerationResult) (err : error_result) s',
        SaveRaw raw path format s = (Ret (res, err), s') ->
        match err with
        | Some _ => res = GenerationResult.zero
        | None =>
            GenerationResult.Error res = None
            /\ GenerationResult.Filename res <> ""
        end).
Proof.
  split; [|split; [|split]].
  - destruct (CreateThumbnail_frame i d s) as (img & err & t & -> & _ & He).
    intros img' err' s' [= <- <- _]. by destruct err.
  - destruct (Save_frame gen i s) as (res & err & w & t & -> & _ & He).
    by intros res' err' s' [= <- <- _].
  - destruct (SaveWithDimension_frame gen i imgConf s)
      as (res & err & w & t & -> & _ & He).
    by intros res' err' s' [= <- <- _].
  - destruct (SaveRaw_frame raw path format s)
      as (res & err & w & t & -> & _ & He).
    by intros res' err' s' [= <- <- _].
Qed.

(** X7: what [saveInternal] returns is the answer of its last write
    attempt: a nil result means that the platform wrote the file and left
    the world [saveInternal] ends in, and an error is the [*fs.PathError]
    the platform gave for that attempt, never the error of the directory
    creation and never an error of another type. The heap is untouched. *)
Theorem saveInternal_returns_last_answer (output : string)
    (base : image_Image) (opt : imgconv.FormatOption.t) s
    (r : error_result) s' :
  saveInternal output base opt s = (Ret r, s') ->
  heap s' = heap s
  /\ (exists w, imgconv_Save output base opt w = (Ret r, world s'))
  /\ match r with
     | Some e => exists p, e = PathErrorPtr p
     | None => True
     end.
Proof.
  rewrite saveInternal_run.
  destruct (imgconv_Save output base opt (world s)) as [[[e|]|r1] w1] eqn:H1.
  - destruct e as [ | [pe|] | | | ]; try done.
    + destruct (os_MkdirAll _ _ w1) as [[m|r1] w2]; [|done]. cbv zeta.
      destruct (imgconv_Save output base opt w2) as [[[e'|]|r2] w3] eqn:H2.
      * destruct e' as [ | p | | | ]; try done.
        intros [= <- <-]. cbn. by eauto.
      * intros [= <- <-]. cbn. by eauto.
      * done.
    + intros [= <- <-]. cbn. by eauto.
  - intros [= <- <-]. cbn. by eauto.
  - done.
Qed.

(** ** [Generate] *)

Lemma Generate_loop_cons gen (i : ImagePtr) d (ds : list ImageDimension)
    (result : list GenerationResult) s :
  Generate_loop gen i (d :: ds) result s =
  match Generate_pass gen i d s with
  | (Ret r, s') => Generate_loop gen i ds (result ++ [r]) s'
  | (Panic p, s') => (Panic p, s')
  end.
Proof.
  cbn [Generate_loop]. unfold Generate_pass, bind.
  destruct (GetProcessedImage gen i d s) as [[[thumb [e|]]|p] s1]; try done.
  destruct (assign_ImageData i thumb s1) as [[[]|p] s2]; [|done].
  destruct (SaveWithDimension gen i (Some d) s2)
    as [[[save [e|]]|p] s3]; done.
Qed.

Lemma failed_result_frame (i : ImagePtr) (e : error) s :
  snd (failed_result i e s) = s.
Proof.
  unfold failed_result, deref, load, bind, ret, panic.
  destruct i as [l|]; [|done]. by destruct (heap s !! l).
Qed.

Lemma assign_ImageData_frame (i : ImagePtr) (data : image_Image) s :
  world (snd (assign_ImageData i data s)) = world s
  /\ trace (snd (assign_ImageData i data s)) = trace s.
Proof.
  unfold assign_ImageData, deref, load, bind, panic.
  destruct i as [l|]; [|done]. by destruct (heap s !! l).
Qed.

Lemma calls_within_app (a b : nat) t1 t2 :
  calls_within a t1 -> calls_within b t2 -> calls_within (a + b) (t1 ++ t2).
Proof.
  unfold calls_within. intros (Hr1 & Hs1 & Hm1 & Ho1) (Hr2 & Hs2 & Hm2 & Ho2).
  rewrite resizes_app, saves_app, mkdirs_app, opens_app, !length_app, Ho1, Ho2.
  repeat split; lia.
Qed.

(** One pass makes at most one resize, two write attempts and one directory
    creation. *)
Lemma Generate_pass_calls gen (i : ImagePtr) d s :
  exists t,
    trace (snd (Generate_pass gen i d s)) = trace s ++ t
    /\ calls_within 1 t.
Proof.
  unfold Generate_pass, GetProcessedImage, bind.
  destruct (CreateThumbnail_frame i d s) as (img & err & t1 & -> & Ht1 & _).
  set (s1 := mkState (heap s) (world s) (trace s ++ t1)).
  assert (H1 : calls_within 1 t1).
  { destruct Ht1 as [->|(l & v & b & o & -> & _)];
      unfold calls_within; cbn; repeat split; lia. }
  destruct err as [e|].
  { exists t1. split; [|done].
    pose proof (failed_result_frame i e s1) as Hf.
    destruct (failed_result i e s1) as [[r|p] s2]; cbn in Hf; by subst s2. }
  destruct (assign_ImageData_frame i img s1) as [_ Ha].
  destruct (assign_ImageData i img s1) as [[[]|p] s2]; cbn [snd] in Ha.
  2:{ exists t1. cbn [snd]. by rewrite Ha. }
  destruct (SaveWithDimension_frame gen i (Some d) s2)
    as (res & err & w & t2 & -> & Ht2 & _).
  assert (H2 : calls_within 0 t2 \/ calls_within 1 (t1 ++ t2)).
  { destruct Ht2 as [->|(o & b & f & [->|[->| ->]])].
    - left. unfold calls_within. cbn. repeat split; lia.
    - right. destruct H1 as (Hr & Hs & Hm & Ho). unfold calls_within.
      rewrite resizes_app, saves_app, mkdirs_app, opens_app, !length_app.
      rewrite Ho. destruct Ht1 as [->|(? & ? & ? & ? & -> & _)]; cbn;
        repeat split; lia.
    - right. destruct H1 as (Hr & Hs & Hm & Ho). unfold calls_within.
      rewrite resizes_app, saves_app, mkdirs_app, opens_app, !length_app.
      rewrite Ho. destruct Ht1 as [->|(? & ? & ? & ? & -> & _)]; cbn;
        repeat split; lia.
    - right. destruct H1 as (Hr & Hs & Hm & Ho). unfold calls_within.
      rewrite resizes_app, saves_app, mkdirs_app, opens_app, !length_app.
      rewrite Ho. destruct Ht1 as [->|(? & ? & ? & ? & -> & _)]; cbn;
        repeat split; lia. }
  assert (H12 : calls_within 1 (t1 ++ t2)).
  { destruct H2 as [H0|H2]; [|done].
    by apply (calls_within_app 1 0). }
  exists (t1 ++ t2).
  assert (Htr : trace (extend s2 w t2) = trace s ++ t1 ++ t2).
  { cbn. rewrite Ha. cbn. by rewrite <- app_assoc. }
  destruct err as [e|].
  - pose proof (failed_result_frame i e (extend s2 w t2)) as Hf.
    destruct (failed_result i e (extend s2 w t2)) as [[r|p] s3];
      cbn [snd] in Hf; subst s3; done.
  - done.
Qed.

Lemma Generate_loop_calls gen (i : ImagePtr) (fs : list ImageDimension) :
  forall (result : list GenerationResult) s,
    exists t,
      trace (snd (Generate_loop gen i fs result s)) = trace s ++ t
      /\ calls_within (length fs) t.
Proof.
  induction fs as [|d ds IH]; intros result s.
  - exists []. cbn. rewrite app_nil_r. unfold calls_within. cbn.
    repeat split; lia.
  - rewrite Generate_loop_cons.
    destruct (Generate_pass_calls gen i d s) as (t1 & Ht1 & H1).
    destruct (Generate_pass gen i d s) as [[r|p] s1]; cbn [snd] in Ht1.
    + destruct (IH (result ++ [r]) s1) as (t2 & Ht2 & H2).
      exists (t1 ++ t2). rewrite Ht2, Ht1, <- app_assoc. split; [done|].
      by apply (calls_within_app 1 (length ds)).
    + exists t1. split; [done|].
      replace t1 with (t1 ++ []) by apply app_nil_r.
      apply (calls_within_app 1 (length ds)); [done|].
      unfold calls_within. cbn. repeat split; lia.
Qed.

(** X8: [Generate] makes no more than one resize, two write attempts and
    one directory creation for each output format, and opens no file,
    whatever the image pointer and the platform. *)
Theorem Generate_calls_within gen (i : ImagePtr) s :
  exists t,
    trace (snd (Generate gen i s)) = trace s ++ t
    /\ calls_within (length (Generator.OutputFormats gen)) t.
Proof.
  unfold Generate.
  destruct (Generator.OutputFormats gen) as [|d ds].
  - exists []. cbn. rewrite app_nil_r. unfold calls_within. cbn.
    repeat split; lia.
  - cbn [length Nat.eqb]. unfold bind.
    destruct (Generate_loop_calls gen i (d :: ds) [] s) as (t & Ht & Hc).
    exists t. split; [|done].
    by destruct (Generate_loop gen i (d :: ds) [] s) as [[rs|p] s'].
Qed.

(** X9: of the caller's image, [Generate] changes the pixel data and
    nothing else: the image stays where it is with its [Path], its [Size]
    (not measured again after a resize) and its [TargetDimension], and every
    other image of the heap is untouched. *)
Theorem Generate_changes_only_pixel_data gen l v s :
  heap s !! l = Some v ->
  exists r (s' : State) v',
    Generate gen (Some l) s = (Ret r, s')
    /\ heap s' !! l = Some v'
    /\ Image.Path v' = Image.Path v
    /\ Image.Size v' = Image.Size v
    /\ Image.TargetDimension v' = Image.TargetDimension v
    /\ length (heap s') = length (heap s)
    /\ forall l', l' <> l -> heap s' !! l' = heap s !! l'.
Proof.
  intros Hl. unfold Generate.
  destruct (Generator.OutputFormats gen) as [|d ds].
  - by exists ([], Some ErrInvalidNoTransformProvided), s, v.
  - cbn [length Nat.eqb]. unfold bind.
    destruct (Generate_loop_run gen l (d :: ds) [] s v Hl)
      as (rs & s' & t & -> & _ & Hheap & _).
    eexists _, s', _. split; [done|]. rewrite Hheap.
    split; [apply list_lookup_insert_eq; by eapply lookup_lt_Some|].
    repeat split; try done.
    + apply length_insert.
    + intros l' Hne. by apply list_lookup_insert_ne.
Qed.

Lemma Generate_loop_refused gen l v (err : error)
    (fs : list ImageDimension) :
  (forall d s, In d fs -> heap s !! l = Some v ->
               CreateThumbnail (Some l) d s = (Ret (None, Some err), s)) ->
  forall (result : list GenerationResult) s,
    heap s !! l = Some v ->
    Generate_loop gen (Some l) fs result s
    = (Ret (result ++ map (fun _ => failure (Image.Path v) err) fs), s).
Proof.
  induction fs as [|d ds IH]; intros Hfs result s Hl.
  - cbn. by rewrite app_nil_r.
  - cbn [Generate_loop map]. unfold GetProcessedImage, bind.
    rewrite (Hfs d s) by (done || by left).
    rewrite (failed_result_run l v err s Hl).
    rewrite IH; [by rewrite <- app_assoc| |done].
    intros d' s0 Hin. apply Hfs. by right.
Qed.

(** X10: on an image without pixel data, and on an image with pixel data
    when no output format sets a percentage, a width or a height,
    [Generate] does nothing at all: it returns, with a nil error, one failed
    result per format, with the source path and [ErrInvalidImageData]
    respectively [ErrInvalidNoTransformProvided], and the state is
    unchanged. *)
Theorem Generate_refused_formats gen l v s :
  heap s !! l = Some v -> Generator.OutputFormats gen <> [] ->
  (Image.ImageData v = None ->
   Generate gen (Some l) s
   = (Ret (map (fun _ => failure (Image.Path v) ErrInvalidImageData)
               (Generator.OutputFormats gen), None), s))
  /\ (Image.ImageData v <> None ->
      Forall (fun d => selects d None) (Generator.OutputFormats gen) ->
      Generate gen (Some l) s
      = (Ret (map (fun _ =>
                     failure (Image.Path v) ErrInvalidNoTransformProvided)
                  (Generator.OutputFormats gen), None), s)).
Proof.
  intros Hl Hne. unfold Generate.
  destruct (Generator.OutputFormats gen) as [|d ds] eqn:Hfs; [done|].
  cbn [length Nat.eqb]. unfold bind. split.
  - intros Hdata.
    rewrite (Generate_loop_refused gen l v ErrInvalidImageData); [done| |done].
    intros d' s0 _ Hl0. by apply (CreateThumbnail_no_data l v).
  - intros Hdata Hall.
    destruct (Image.ImageData v) as [data|] eqn:Hd; [|done].
    rewrite (Generate_loop_refused gen l v ErrInvalidNoTransformProvided);
      [done| |done].
    intros d' s0 Hin Hl0.
    apply (CreateThumbnail_run l v data d' None s0 Hl0 Hd).
    rewrite Forall_forall in Hall. by apply Hall, list_elem_of_In.
Qed.

Lemma resolved_basefileName_path v1 v2 d :
  Image.Path v1 = Image.Path v2 ->
  resolved_basefileName v1 d = resolved_basefileName v2 d.
Proof. unfold resolved_basefileName. by intros ->. Qed.

Lemma step_result_names gen l v d s (r : GenerationResult) :
  heap s !! l = Some v ->
  step_result gen l (Image.Path v) d s r ->
  match GenerationResult.Error r with
  | None =>
      GenerationResult.Filename r = resolved_basefileName v d
      /\ GenerationResult.Path r = resolved_destpath d
  | Some _ =>
      GenerationResult.Filename r = Image.Path v
      /\ GenerationResult.Path r = Image.Path v
  end.
Proof.
  intros Hl. unfold step_result, GetProcessedImage.
  destruct (CreateThumbnail_frame (Some l) d s)
    as (img & err & t & -> & _ & _).
  destruct err as [e|]; [by intros ->|].
  set (s1 := mkState (heap s) (world s) (trace s ++ t)).
  assert (Hl1 : heap s1 !! l = Some v) by done.
  rewrite (assign_ImageData_run l v img s1 Hl1). cbn [snd].
  pose proof (with_ImageData_lookup l v img s1 Hl1) as Hl2.
  destruct (SaveWithDimension gen (Some l) (Some d) _)
    as [[[save [e|]]|p] s3] eqn:Hsave; [by intros ->| |done].
  intros [-> _].
  apply (SaveWithDimension_success gen l _ d _ save s3 Hl2) in Hsave
    as (-> & _). cbn. done.
Qed.

(** X11: in the results of [Generate] a successful result carries the
    resolved base file name as [Filename] and the destination override, or
    the empty string if there is none, as [Path]; a failed one carries the
    source path of the image in both. What a result names depends on its
    format and on the path of the image only, not on the formats before
    it. *)
Theorem Generate_result_names gen l v s (rs : list GenerationResult)
    (err : error_result) s' (k : nat) d (r : GenerationResult) :
  heap s !! l = Some v ->
  Generate gen (Some l) s = (Ret (rs, err), s') ->
  Generator.OutputFormats gen !! k = Some d ->
  rs !! k = Some r ->
  match GenerationResult.Error r with
  | None =>
      GenerationResult.Filename r = resolved_basefileName v d
      /\ GenerationResult.Path r = resolved_destpath d
  | Some _ =>
      GenerationResult.Filename r = Image.Path v
      /\ GenerationResult.Path r = Image.Path v
  end.
Proof.
  intros Hl Hrun Hk Hr. unfold Generate in Hrun.
  destruct (Generator.OutputFormats gen) as [|d0 ds] eqn:Hfs; [done|].
  cbn [length Nat.eqb] in Hrun. unfold bind in Hrun.
  destruct (Generate_loop_run gen l (d0 :: ds) [] s v Hl)
    as (rs0 & s0 & t & Hloop & _ & _ & _ & _ & Hsteps).
  rewrite Hloop in Hrun. injection Hrun as <- <- <-.
  destruct (Hsteps k d Hk) as (r' & sk & Hr' & Hprefix & Hres).
  cbn in Hr. rewrite Hr in Hr'. injection Hr' as <-.
  destruct (Generate_loop_run gen l (take k (d0 :: ds)) [] s v Hl)
    as (rsk & sk' & tk & Hloopk & _ & Hheapk & _).
  rewrite Hloopk in Hprefix. injection Hprefix as _ <-.
  set (vk := Image.set_ImageData v (data_after (Image.ImageData v) tk)).
  assert (Hlk : heap sk' !! l = Some vk).
  { rewrite Hheapk. apply list_lookup_insert_eq. by eapply lookup_lt_Some. }
  pose proof (step_result_names gen l vk d sk' r Hlk Hres) as Hnames.
  by rewrite (resolved_basefileName_path vk v d) in Hnames.
Qed.

(** ** Composition *)

Lemma Generate_loop_app gen (i : ImagePtr) (fs1 fs2 : list ImageDimension) :
  forall (result : list GenerationResult) s,
    Generate_loop gen i (fs1 ++ fs2) result s =
    match Generate_loop gen i fs1 result s with
    | (Ret r1, s1) => Generate_loop gen i fs2 r1 s1
    | (Panic p, s1) => (Panic p, s1)
    end.
Proof.
  induction fs1 as [|d ds IH]; intros result s; [done|].
  cbn [app]. rewrite !Generate_loop_cons.
  destruct (Generate_pass gen i d s) as [[r|p] s1]; [apply IH|done].
Qed.

Lemma Generate_loop_result gen (i : ImagePtr) (fs : list ImageDimension) :
  forall (result : list GenerationResult) s,
    Generate_loop gen i fs result s =
    match Generate_loop gen i fs [] s with
    | (Ret rs, s') => (Ret (result ++ rs), s')
    | (Panic p, s') => (Panic p, s')
    end.
Proof.
  induction fs as [|d ds IH]; intros result s.
  - cbn. by rewrite app_nil_r.
  - rewrite !Generate_loop_cons.
    destruct (Generate_pass gen i d s) as [[r|p] s1]; [|done].
    rewrite (IH (result ++ [r])), (IH ([] ++ [r])).
    destruct (Generate_loop gen i ds [] s1) as [[rs|p] s2]; [|done].
    by rewrite <- app_assoc.
Qed.

Lemma Generate_loop_with_OutputFormats gen (fs : list ImageDimension)
    (i : ImagePtr) (ds : list ImageDimension) :
  forall (result : list GenerationResult) s,
    Generate_loop (with_OutputFormats gen fs) i ds result s
    = Generate_loop gen i ds result s.
Proof.
  induction ds as [|d ds IH]; intros result s; [done|].
  rewrite !Generate_loop_cons.
  change (Generate_pass (with_OutputFormats gen fs) i d s)
    with (Generate_pass gen i d s).
  destruct (Generate_pass gen i d s) as [[r|p] s1]; [apply IH|done].
Qed.

(** X12: generating the formats [fs1 ++ fs2] in one call is generating
    [fs1] and then, on the image as the first call left it, [fs2]: the
    results are the results of the two calls one after the other and the
    state is the state after the second call; a panic of either is the
    panic of the whole. *)
Theorem Generate_appended_formats gen (i : ImagePtr)
    (fs1 fs2 : list ImageDimension) s :
  fs1 <> [] -> fs2 <> [] ->
  Generate (with_OutputFormats gen (fs1 ++ fs2)) i s =
  match Generate (with_OutputFormats gen fs1) i s with
  | (Ret (rs1, _), s1) =>
      match Generate (with_OutputFormats gen fs2) i s1 with
      | (Ret (rs2, _), s2) => (Ret (rs1 ++ rs2, None), s2)
      | (Panic p, s2) => (Panic p, s2)
      end
  | (Panic p, s1) => (Panic p, s1)
  end.
Proof.
  intros H1 H2. unfold Generate.
  cbn [Generator.OutputFormats with_OutputFormats].
  destruct fs1 as [|d1 fs1]; [done|]. destruct fs2 as [|d2 fs2]; [done|].
  cbn [app length Nat.eqb]. unfold bind, ret.
  rewrite !Generate_loop_with_OutputFormats.
  change (d1 :: fs1 ++ d2 :: fs2) with ((d1 :: fs1) ++ d2 :: fs2).
  rewrite Generate_loop_app.
  destruct (Generate_loop gen i (d1 :: fs1) [] s) as [[rs1|p] s1]; [|done].
  rewrite Generate_loop_result, Generate_loop_with_OutputFormats.
  by destruct (Generate_loop gen i (d2 :: fs2) [] s1) as [[rs2|p] s2].
Qed.

(** X13: a generator made by [New] has no output formats, whatever the
    configuration it is made from has, so [Generate] on it always fails
    with [ErrInvalidNoTransformProvided] and does nothing; so does a
    generator made by [NewGenerator] with no formats; with formats,
    [NewGenerator] gives a generator on which [Generate] returns one result
    per format and a nil error. *)
Theorem Generate_needs_output_formats (c : Generator) (i : ImagePtr) s :
  Generate (New c) i s = (Ret ([], Some ErrInvalidNoTransformProvided), s)
  /\ Generate (NewGenerator c []) i s
     = (Ret ([], Some ErrInvalidNoTransformProvided), s)
  /\ (forall (fs : list ImageDimension) l v,
        fs <> [] -> i = Some l -> heap s !! l = Some v ->
        exists rs s',
          Generate (NewGenerator c fs) i s = (Ret (rs, None), s')
          /\ length rs = length fs).
Proof.
  split; [done|]. split; [done|].
  intros fs l v Hfs -> Hl. unfold Generate.
  cbn [Generator.OutputFormats NewGenerator].
  destruct fs as [|d ds]; [done|]. cbn [length Nat.eqb]. unfold bind.
  destruct (Generate_loop_run (NewGenerator c (d :: ds)) l (d :: ds) [] s v Hl)
    as (rs & s' & t & -> & Hlen & _).
  by exists rs, s'.
Qed.

(** X14: the dimension [GetGeneratorDimension] gives for a generator made by
    [NewGenerator] is always a resize to exactly 300 by 300, whatever the
    configuration asked for; for any generator it never is a percentage,
    and with neither a width nor a height above zero (a generator made by
    [New] from a configuration without them) [CreateThumbnail] refuses it
    with [ErrInvalidNoTransformProvided]. *)
Theorem GetGeneratorDimension_mode gen (c : Generator)
    (fs : list ImageDimension) l v (data : Pixels) s :
  heap s !! l = Some v -> Image.ImageData v = Some data ->
  CreateThumbnail (Some l) (GetGeneratorDimension (NewGenerator c fs)) s
  = resized_with data (ResizeOption_of_mode (Exact 300 300)) s
  /\ (forall p, ~ selects (GetGeneratorDimension gen) (Some (Proportional p)))
  /\ (Generator.Width gen <= 0 -> Generator.Height gen <= 0 ->
      CreateThumbnail (Some l) (GetGeneratorDimension gen) s
      = (Ret (None, Some ErrInvalidNoTransformProvided), s)).
Proof.
  intros Hl Hdata. split; [|split].
  - apply (CreateThumbnail_run l v data _ (Some (Exact 300 300)) s Hl Hdata).
    by apply (selects_exact (GetGeneratorDimension (NewGenerator c fs))).
  - intros p Hsel. inversion Hsel as [Hp| | | |]. cbn in Hp. done.
  - intros Hw Hh.
    apply (CreateThumbnail_run l v data _ None s Hl Hdata).
    apply selects_none; cbn; [done|lia..].
Qed.

(** ** Loading *)

Lemma NewImageFromFile_run gen (path : string) s :
  NewImageFromFile gen path s =
  match imgconv_Open path (world s) with
  | (Ret (inl src), w1) =>
      (Ret (Some (length (heap s)), None),
       mkState (heap s ++ [loaded path src (generator_size gen)]) w1
               (trace s ++ [EvOpen path]))
  | (Ret (inr e), w1) => (Ret (None, Some e), extend s w1 [EvOpen path])
  | (Panic r, w1) => (Panic r, extend s w1 [EvOpen path])
  end.
Proof.
  unfold NewImageFromFile, bind. rewrite ImageFromFile_run.
  destruct (imgconv_Open path (world s)) as [[[src|e]|r] w1]; try done.
  by rewrite assign_TargetDimension_fresh.
Qed.

(** X15: [NewImageFromFile] opens the file once. When it decodes, the
    result is a pointer to a new image, at a location that held nothing
    before, with the path, the decoded pixels, the size the codec measured
    and the generator's width and height as target dimension; every image
    loaded before is still what it was. When it does not, the result is a
    nil pointer with the codec's error as it is, and no image is made. *)
Theorem NewImageFromFile_fresh_image gen (path : string) s :
  (forall (src : Pixels) w1,
      imgconv_Open path (world s) = (Ret (inl src), w1) ->
      exists s',
        NewImageFromFile gen path s
        = (Ret (Some (length (heap s)), None), s')
        /\ heap s !! length (heap s) = None
        /\ heap s' !! length (heap s)
           = Some (loaded path src (generator_size gen))
        /\ (forall l v, heap s !! l = Some v -> heap s' !! l = Some v)
        /\ world s' = w1 /\ trace s' = trace s ++ [EvOpen path])
  /\ (forall (e : error) w1,
        imgconv_Open path (world s) = (Ret (inr e), w1) ->
        NewImageFromFile gen path s
        = (Ret (None, Some e), extend s w1 [EvOpen path])).
Proof.
  rewrite NewImageFromFile_run. split.
  - intros src w1 ->. eexists. split; [done|]. cbn.
    split; [by apply lookup_ge_None_2|].
    split; [by rewrite lookup_app_r, Nat.sub_diag|].
    split; [|done]. intros l v Hl. rewrite lookup_app_l; [done|].
    by eapply lookup_lt_Some.
  - by intros e w1 ->.
Qed.

(** X16: [NewImageFromFilewWithDefault] is [NewImageFromFile] on the
    primary path when no fallback is given or when the primary path loads,
    and it is [NewImageFromFile] on the fallback, run after the failed
    opening of the primary path, when the primary path fails and a fallback
    is given. *)
Theorem NewImageFromFilewWithDefault_as_NewImageFromFile gen
    (path defaultImg : string) s :
  (defaultImg = "" ->
   NewImageFromFilewWithDefault gen path defaultImg s
   = NewImageFromFile gen path s)
  /\ (forall (src : Pixels) w1,
        imgconv_Open path (world s) = (Ret (inl src), w1) ->
        NewImageFromFilewWithDefault gen path defaultImg s
        = NewImageFromFile gen path s)
  /\ (forall (e : error) w1,
        imgconv_Open path (world s) = (Ret (inr e), w1) ->
        defaultImg <> "" ->
        NewImageFromFilewWithDefault gen path defaultImg s
        = NewImageFromFile gen defaultImg (extend s w1 [EvOpen path])).
Proof.
  rewrite NewImageFromFile_run.
  unfold NewImageFromFilewWithDefault, bind. rewrite ImageFromFile_run.
  split; [|split].
  - intros ->.
    destruct (imgconv_Open path (world s)) as [[[src|e]|r] w1]; try done.
    by rewrite assign_TargetDimension_fresh.
  - intros src w1 ->. by rewrite assign_TargetDimension_fresh.
  - intros e w1 -> Hd. apply eqb_empty_false in Hd. rewrite Hd. cbn [negb].
    rewrite NewImageFromFile_run, ImageFromFile_run. cbn.
    destruct (imgconv_Open defaultImg w1) as [[[src|e']|r] w2]; try done.
    by rewrite assign_TargetDimension_fresh.
Qed.

(** ** File names *)

Lemma split_no_separator (s : string) :
  Forall (fun e => has_separator e = false) (filepath.split s).
Proof.
  induction s as [|c s IH]; cbn.
  - by repeat constructor.
  - destruct (filepath.IsPathSeparator c) eqn:Hc.
    + by constructor.
    + destruct (filepath.split s) as [|hd tl].
      * repeat constructor. cbn. by rewrite Hc.
      * inversion IH as [|? ? Hhd Htl]; subst.
        constructor; [|done]. cbn. by rewrite Hc, Hhd.
Qed.

Lemma last_no_separator (l : list string) :
  Forall (fun e => has_separator e = false) l ->
  has_separator (List.last l "") = false.
Proof.
  induction l as [|a l IH]; [done|].
  intros Hall. inversion Hall as [|? ? Ha Hl]; subst.
  destruct l as [|b l]; [done|]. by apply IH.
Qed.

(** The base name of a path is the root or has no separator in it. *)
Lemma Base_no_separator (path : string) :
  filepath.Base path = "/" \/ has_separator (filepath.Base path) = false.
Proof.
  unfold filepath.Base.
  destruct (path =? "")%string; [by right|]. cbv zeta.
  destruct (List.last _ _ =? "")%string; [by left|]. right.
  apply last_no_separator, split_no_separator.
Qed.

(** X17: the [Filename] of a successful [SaveWithDimension] is a bare file
    name: it is not empty, and it is the root ["/"] or has no path
    separator in it, whatever directories the specification's name or the
    image path go through. *)
Theorem SaveWithDimension_filename_is_a_base_name gen l v d s
    (res : GenerationResult) s' :
  heap s !! l = Some v ->
  SaveWithDimension gen (Some l) (Some d) s = (Ret (res, None), s') ->
  GenerationResult.Filename res <> ""
  /\ (GenerationResult.Filename res = "/"
      \/ has_separator (GenerationResult.Filename res) = false).
Proof.
  intros Hl Hrun.
  destruct (SaveWithDimension_success gen l v d s res s' Hl Hrun)
    as (-> & _).
  cbn. unfold resolved_basefileName.
  destruct (0 <? len _)%nat; split;
    (apply Base_nonempty || apply Base_no_separator).
Qed.

(** ** The earlier revision *)

(** X19: [Save] of the earlier revision has its test of the pixel data the
    wrong way round: it refuses every image that has pixel data with
    [ErrInvalidImageData], without a write, and goes on to the write only
    for an image without pixel data, handing the encoder a nil image. *)
Theorem Save_earlier_refuses_pixel_data gen l v s :
  heap s !! l = Some v ->
  (Image.ImageData v <> None ->
   Save_earlier gen (Some l) s
   = (Ret (GenerationResult.zero, Some ErrInvalidImageData), s))
  /\ (Image.ImageData v = None ->
      let destpath :=
        filepath.Join
          [Generator.DestinationPath gen +:+ Generator.Prefix gen;
           filepath.Base (Image.Path v)] in
      snd (Save_earlier gen (Some l) s)
      = extend s
          (snd (imgconv_Save destpath None (Generator.PreferredFormat gen)
                  (world s)))
          [EvSave destpath None (Generator.PreferredFormat gen)]).
Proof.
  intros Hl. unfold Save_earlier, recovered, bind, load, ret. rewrite Hl.
  split.
  - intros Hdata. by destruct (Image.ImageData v).
  - intros ->. cbv zeta. unfold call_Save, emit, in_world, bind, extend. cbn.
    by destruct (imgconv_Save _ None _ (world s)) as [[[e|]|r] w1].
Qed.

Lemma GetProcessedImage_earlier_frame gen (i : ImagePtr) d s :
  exists a t,
    GetProcessedImage_earlier gen i d s
    = (Ret a, mkState (heap s) (world s) (trace s ++ t))
    /\ Forall (fun e => writes_pixels e = false) t.
Proof.
  unfold GetProcessedImage_earlier, recovered, bind, load, ret.
  destruct i as [l|].
  2:{ eexists _, []. by rewrite state_same. }
  destruct (heap s !! l) as [v|].
  2:{ eexists _, []. by rewrite state_same. }
  destruct (Image.ImageData v) as [data|].
  2:{ eexists _, []. by rewrite state_same. }
  unfold call_Resize, emit, bind.
  destruct (float_gt (ImageDimension.Percentage d) 0%float).
  { cbn. destruct (imgconv_Resize data _) as [mark|r];
      eexists _, [_]; (split; [done|]); by repeat constructor. }
  destruct ((0 <? ImageDimension.Width d) || (0 <? ImageDimension.Height d)).
  { cbn. destruct (imgconv_Resize data _) as [mark|r];
      eexists _, [_]; (split; [done|]); by repeat constructor. }
  eexists _, []. by rewrite state_same.
Qed.

Lemma Save_earlier_frame gen (i : ImagePtr) s :
  exists a w t,
    Save_earlier gen i s = (Ret a, extend s w t)
    /\ Forall (fun e => writes_pixels e = false) t.
Proof.
  unfold Save_earlier, recovered, bind, load, ret.
  destruct i as [l|].
  2:{ eexists _, _, []. by rewrite extend_nil. }
  destruct (heap s !! l) as [v|].
  2:{ eexists _, _, []. by rewrite extend_nil. }
  destruct (Image.ImageData v) as [data|].
  { eexists _, _, []. by rewrite extend_nil. }
  unfold call_Save, emit, in_world, bind, extend. cbn.
  destruct (imgconv_Save _ None _ (world s)) as [[[e|]|r] w1];
    eexists _, w1, [_]; (split; [done|]); by repeat constructor.
Qed.

Lemma Generate_earlier_loop_cons gen (i : ImagePtr) d
    (ds : list ImageDimension) (result : list GenerationResult) s :
  Generate_earlier_loop gen i (d :: ds) result s =
  match Generate_earlier_pass gen i d s with
  | (Ret r, s') => Generate_earlier_loop gen i ds (result ++ [r]) s'
  | (Panic p, s') => (Panic p, s')
  end.
Proof.
  cbn [Generate_earlier_loop]. unfold Generate_earlier_pass, bind.
  destruct (GetProcessedImage_earlier gen i d s)
    as [[[thumb [e|]]|p] s1]; try done.
  destruct (assign_ImageData i thumb s1) as [[[]|p] s2]; [|done].
  destruct (Save_earlier gen i s2) as [[[save [e|]]|p] s3]; done.
Qed.

Lemma Generate_earlier_pass_writes gen (i : ImagePtr) d s :
  exists t,
    trace (snd (Generate_earlier_pass gen i d s)) = trace s ++ t
    /\ Forall (fun e => writes_pixels e = false) t.
Proof.
  unfold Generate_earlier_pass, bind.
  destruct (GetProcessedImage_earlier_frame gen i d s)
    as ([img err] & t1 & -> & H1).
  set (s1 := mkState (heap s) (world s) (trace s ++ t1)).
  destruct err as [e|].
  { exists t1. split; [|done].
    pose proof (failed_result_frame i e s1) as Hf.
    destruct (failed_result i e s1) as [[r|p] s2]; cbn in Hf; by subst s2. }
  destruct (assign_ImageData_frame i img s1) as [_ Ha].
  destruct (assign_ImageData i img s1) as [[[]|p] s2]; cbn [snd] in Ha.
  2:{ exists t1. cbn [snd]. by rewrite Ha. }
  destruct (Save_earlier_frame gen i s2) as ([res err] & w & t2 & -> & H2).
  exists (t1 ++ t2).
  assert (Htr : trace (extend s2 w t2) = trace s ++ t1 ++ t2).
  { cbn. rewrite Ha. cbn. by rewrite <- app_assoc. }
  split; [|by apply Forall_app].
  destruct err as [e|]; [|done].
  pose proof (failed_result_frame i e (extend s2 w t2)) as Hf.
  destruct (failed_result i e (extend s2 w t2)) as [[r|p] s3];
    cbn [snd] in Hf; subst s3; done.
Qed.

Lemma Generate_earlier_loop_writes gen (i : ImagePtr)
    (fs : list ImageDimension) :
  forall (result : list GenerationResult) s,
    exists t,
      trace (snd (Generate_earlier_loop gen i fs result s)) = trace s ++ t
      /\ Forall (fun e => writes_pixels e = false) t.
Proof.
  induction fs as [|d ds IH]; intros result s.
  - exists []. cbn. by rewrite app_nil_r.
  - rewrite Generate_earlier_loop_cons.
    destruct (Generate_earlier_pass_writes gen i d s) as (t1 & Ht1 & H1).
    destruct (Generate_earlier_pass gen i d s) as [[r|p] s1];
      cbn [snd] in Ht1.
    + destruct (IH (result ++ [r]) s1) as (t2 & Ht2 & H2).
      exists (t1 ++ t2). rewrite Ht2, Ht1, <- app_assoc.
      split; [done|by apply Forall_app].
    + by exists t1.
Qed.

(** X20: [Generate] of the earlier revision never writes a thumbnail: in
    every run, whatever the platform, no write attempt is given pixel
    data, because [Save] of that revision refuses the image as soon as the
    resize has put pixel data into it. *)
Theorem Generate_earlier_never_writes_pixels gen (i : ImagePtr) s :
  exists t,
    trace (snd (Generate_earlier gen i s)) = trace s ++ t
    /\ Forall (fun e => writes_pixels e = false) t.
Proof.
  unfold Generate_earlier.
  destruct (Generator.OutputFormats gen) as [|d ds].
  - exists []. cbn. by rewrite app_nil_r.
  - cbn [length Nat.eqb]. unfold bind.
    destruct (Generate_earlier_loop_writes gen i (d :: ds) [] s)
      as (t & Ht & Hw).
    exists t. split; [|done].
    by destruct (Generate_earlier_loop gen i (d :: ds) [] s) as [[rs|p] s'].
Qed.
(** X22: the type assertion of [saveInternal], of its error to
    [*fs.PathError], panics in the goroutine of the call, and the deferred
    [recover] of [Save] and of [SaveWithDimension] turns that panic into the
    returned error: when the first write fails with an error whose dynamic
    type is not [*fs.PathError], the entry point returns the zero result
    with [fmt.Errorf("recovered from panic: %v", r)], [r] the panic of the
    assertion, after that one write attempt and with the heap as it was. *)
Theorem save_recovers_type_assertion gen l v (data : Pixels) d s (e : error)
    w1 :
  heap s !! l = Some v -> Image.ImageData v = Some data ->
  (forall p, e <> PathErrorPtr p) ->
  (imgconv_Save (resolved_fileLocationPath gen v d) (Some data)
     (Generator.PreferredFormat gen) (world s) = (Ret (Some e), w1) ->
   SaveWithDimension gen (Some l) (Some d) s
   = (Ret (GenerationResult.zero,
           Some (Errorf_panic "recovered from panic: %v"
                   (TypeAssertionError e))),
      extend s w1
        [attempt (resolved_fileLocationPath gen v d) (Some data)
           (Generator.PreferredFormat gen)]))
  /\ (imgconv_Save (Save_destpath gen v) (Some data)
        (Generator.PreferredFormat gen) (world s) = (Ret (Some e), w1) ->
      Save gen (Some l) s
      = (Ret (GenerationResult.zero,
              Some (Errorf_panic "recovered from panic: %v"
                      (TypeAssertionError e))),
         extend s w1
           [attempt (Save_destpath gen v) (Some data)
              (Generator.PreferredFormat gen)])).
Proof.
  intros Hl Hdata He. split; intros Hsave.
  - rewrite (SaveWithDimension_run gen l v data d s Hl Hdata).
    by rewrite (saveInternal_foreign_error _ _ _ s e w1 Hsave He).
  - rewrite (Save_run gen l v data s Hl Hdata).
    by rewrite (saveInternal_foreign_error _ _ _ s e w1 Hsave He).
Qed.

End MoreProperties.

Section FromBytesProperties.
Context `{P : Platform} {D : Decoder}.

(** X18: an image [NewImageFromByteArray] returns has no path: it is a new
    image with an empty [Path], the decoded pixels and the generator's
    width and height as target dimension, and the images loaded before are
    what they were. So [SaveWithDimension] names it ["."] when the
    specification has no name, and [Save] when the generator has no name;
    when the bytes do not decode the codec's error comes back as it is and
    the state is unchanged. *)
Theorem NewImageFromByteArray_image_has_no_path (gen : Generator)
    (path : list Byte.byte) (s : State) :
  (forall (i : ImagePtr) s',
      NewImageFromByteArray gen path s = (Ret (i, None), s') ->
      exists (src : Pixels),
        imgconv_Decode path = Ret (inl src)
        /\ i = Some (length (heap s))
        /\ heap s' = heap s ++ [loaded "" src (generator_size gen)]
        /\ world s' = world s /\ trace s' = trace s
        /\ (forall d, ImageDimension.Name d = "" ->
              resolved_basefileName
                (loaded "" src (generator_size gen)) d = ".")
        /\ (Generator.Name gen = "" ->
            Save_basefileName gen (loaded "" src (generator_size gen))
            = "."))
  /\ (forall (e : error),
        imgconv_Decode path = Ret (inr e) ->
        NewImageFromByteArray gen path s = (Ret (None, Some e), s)).
Proof.
  unfold NewImageFromByteArray, alloc, bind, ret. split.
  - intros i s'.
    destruct (imgconv_Decode path) as [[src|e]|r]; [|done..].
    intros [= <- <-]. exists src. cbn.
    repeat split; try done.
    + intros d Hd. unfold resolved_basefileName. by rewrite Hd.
    + intros Hn. unfold Save_basefileName. by rewrite Hn.
  - by intros e ->.
Qed.

End FromBytesProperties.

(** * More of the package on the test bed *)

Section MoreOnTheTestBed.
Import TestBed.

Lemma Save_reports_where_it_wrote_witness :
  let g := gen "b.png" [] in
  let res := {| GenerationResult.Filename := "b.png";
                GenerationResult.Path := "/out/t_b.png";
                GenerationResult.Error := None |} in
  let s' := snd (Save g (Some 0%nat) start) in
  (Generator.Name g <> "" ->
   GenerationResult.Filename res = Generator.Name g)
  /\ (Generator.Name g = "" ->
      GenerationResult.Filename res = filepath.Base (Image.Path c_png))
  /\ GenerationResult.Path res
     = filepath.Join [Generator.DestinationPath g;
                      Generator.Prefix g +:+ GenerationResult.Filename res]
  /\ heap s' = heap start
  /\ exists t,
       trace s' = trace start ++ t /\ saves t <> []
       /\ Forall (eq (GenerationResult.Path res)) (saves t).
Proof.
  intros g res s'.
  apply (Save_reports_where_it_wrote (P := platform) g 0%nat c_png start res
           s'); reflexivity.
Defined.

Lemma missing_pixel_data_is_refused_witness :
  CreateThumbnail (Some 0%nat) width_100 blank_start
  = (Ret (None, Some ErrInvalidImageData), blank_start)
  /\ Save (gen "" []) (Some 0%nat) blank_start
     = (Ret (GenerationResult.zero, Some ErrInvalidImageData), blank_start)
  /\ SaveWithDimension (gen "" []) (Some 0%nat) (Some width_100) blank_start
     = (Ret (GenerationResult.zero, Some ErrInvalidImageData), blank_start).
Proof.
  apply (proj1 (proj2
           (missing_pixel_data_is_refused (P := platform) (gen "" [])
              width_100 (Some width_100) blank_start))
           0%nat (Image.set_ImageData c_png None)); reflexivity.
Defined.

(** [SaveRaw] into the directory [/out], which does not exist: one write
    attempt, no directory creation, and the error of the attempt comes back
    wrapped. *)
Lemma SaveRaw_writes_once_witness :
  snd (SaveRaw (Some (Decoded "/tmp/c.png")) "/out/x.jpg" jpeg start)
  = extend start disk [EvSave "/out/x.jpg" (Some (Decoded "/tmp/c.png")) jpeg]
  /\ fst (SaveRaw (Some (Decoded "/tmp/c.png")) "/out/x.jpg" jpeg start)
     = Ret (GenerationResult.zero,
            Some (Errorf_error "failed to write image: %v"
                    (path_error "open" "/out/x.jpg" ENOENT))).
Proof.
  apply (proj2 (SaveRaw_writes_once (P := platform)
                  (Some (Decoded "/tmp/c.png")) "/out/x.jpg" jpeg start));
    discriminate.
Defined.

Lemma saveInternal_returns_last_answer_witness :
  let s' := snd (saveInternal "/out/t_c.png" (Some (Decoded "/tmp/c.png"))
                   jpeg start) in
  heap s' = heap start
  /\ (exists w,
        imgconv_Save "/out/t_c.png" (Some (Decoded "/tmp/c.png")) jpeg w
        = (Ret None, world s'))
  /\ True.
Proof.
  intros s'.
  apply (saveInternal_returns_last_answer (P := platform) "/out/t_c.png"
           (Some (Decoded "/tmp/c.png")) jpeg start None s').
  reflexivity.
Defined.

Lemma Generate_changes_only_pixel_data_witness :
  let g := gen "" [width_100; nothing_set; height_50_override] in
  exists r (s' : State) v',
    Generate g (Some 0%nat) start = (Ret r, s')
    /\ heap s' !! 0%nat = Some v'
    /\ Image.Path v' = Image.Path c_png
    /\ Image.Size v' = Image.Size c_png
    /\ Image.TargetDimension v' = Image.TargetDimension c_png
    /\ length (heap s') = length (heap start)
    /\ forall l', l' <> 0%nat -> heap s' !! l' = heap start !! l'.
Proof.
  intros g.
  apply (Generate_changes_only_pixel_data (P := platform) g 0%nat c_png
           start).
  reflexivity.
Defined.

Lemma Generate_refused_formats_witness :
  let g := gen "" [nothing_set; nothing_set] in
  (Image.ImageData c_png = None ->
   Generate g (Some 0%nat) start
   = (Ret (map (fun _ => failure (Image.Path c_png) ErrInvalidImageData)
               (Generator.OutputFormats g), None), start))
  /\ (Image.ImageData c_png <> None ->
      Forall (fun d => selects d None) (Generator.OutputFormats g) ->
      Generate g (Some 0%nat) start
      = (Ret (map (fun _ =>
                     failure (Image.Path c_png) ErrInvalidNoTransformProvided)
                  (Generator.OutputFormats g), None), start)).
Proof.
  intros g.
  apply (Generate_refused_formats (P := platform) g 0%nat c_png start).
  - reflexivity.
  - discriminate.
Defined.

Lemma Generate_result_names_witness :
  let r := {| GenerationResult.Filename := "n.png";
              GenerationResult.Path := "/custom/x.jpg";
              GenerationResult.Error := None |} in
  match GenerationResult.Error r with
  | None =>
      GenerationResult.Filename r
      = resolved_basefileName c_png height_50_override
      /\ GenerationResult.Path r = resolved_destpath height_50_override
  | Some _ =>
      GenerationResult.Filename r = Image.Path c_png
      /\ GenerationResult.Path r = Image.Path c_png
  end.
Proof.
  intros r.
  apply (Generate_result_names (P := platform)
           (gen "" [width_100; nothing_set; height_50_override]) 0%nat c_png
           start
           [{| GenerationResult.Filename := "c.png";
               GenerationResult.Path := "";
               GenerationResult.Error := None |};
            failure "/tmp/c.png" ErrInvalidNoTransformProvided; r]
           None
           (snd (Generate (gen "" [width_100; nothing_set; height_50_override])
                   (Some 0%nat) start))
           2%nat height_50_override r); reflexivity.
Defined.

Lemma Generate_appended_formats_witness :
  Generate
    (with_OutputFormats (gen "" []) ([width_100] ++ [height_50_override]))
    (Some 0%nat) start =
  match Generate (with_OutputFormats (gen "" []) [width_100]) (Some 0%nat)
          start with
  | (Ret (rs1, _), s1) =>
      match Generate (with_OutputFormats (gen "" []) [height_50_override])
              (Some 0%nat) s1 with
      | (Ret (rs2, _), s2) => (Ret (rs1 ++ rs2, None), s2)
      | (Panic p, s2) => (Panic p, s2)
      end
  | (Panic p, s1) => (Panic p, s1)
  end.
Proof.
  apply (Generate_appended_formats (P := platform) (gen "" []) (Some 0%nat)
           [width_100] [height_50_override] start); discriminate.
Defined.

Lemma Generate_needs_output_formats_witness :
  exists rs s',
    Generate (NewGenerator (gen "" []) [width_100; nothing_set]) (Some 0%nat)
      start = (Ret (rs, None), s')
    /\ length rs = 2%nat.
Proof.
  apply (proj2 (proj2
           (Generate_needs_output_formats (P := platform) (gen "" [])
              (Some 0%nat) start))
           [width_100; nothing_set] 0%nat c_png);
    [discriminate|reflexivity|reflexivity].
Defined.

Lemma GetGeneratorDimension_mode_witness :
  let g := New (gen "" []) in
  CreateThumbnail (Some 0%nat)
    (GetGeneratorDimension (NewGenerator (gen "" []) [])) start
  = resized_with (Decoded "/tmp/c.png")
      (ResizeOption_of_mode (Exact 300 300)) start
  /\ (forall p, ~ selects (GetGeneratorDimension g) (Some (Proportional p)))
  /\ (Generator.Width g <= 0 -> Generator.Height g <= 0 ->
      CreateThumbnail (Some 0%nat) (GetGeneratorDimension g) start
      = (Ret (None, Some ErrInvalidNoTransformProvided), start)).
Proof.
  intros g.
  apply (GetGeneratorDimension_mode (P := platform) g (gen "" []) [] 0%nat
           c_png (Decoded "/tmp/c.png") start); reflexivity.
Defined.

Lemma NewImageFromFile_fresh_image_witness :
  exists s',
    NewImageFromFile (gen "" []) "/tmp/c.png" start
    = (Ret (Some 1%nat, None), s')
    /\ heap start !! 1%nat = None
    /\ heap s' !! 1%nat
       = Some (loaded (P := platform) "/tmp/c.png" (Decoded "/tmp/c.png")
                 (generator_size (gen "" [])))
    /\ (forall l v, heap start !! l = Some v -> heap s' !! l = Some v)
    /\ world s' = disk /\ trace s' = trace start ++ [EvOpen "/tmp/c.png"].
Proof.
  apply (proj1 (NewImageFromFile_fresh_image (P := platform) (gen "" [])
                  "/tmp/c.png" start) (Decoded "/tmp/c.png") disk).
  reflexivity.
Defined.

Lemma NewImageFromFilewWithDefault_as_NewImageFromFile_witness :
  NewImageFromFilewWithDefault (gen "" []) "/a.png" "/tmp/c.png" start
  = NewImageFromFile (gen "" []) "/tmp/c.png"
      (extend start disk [EvOpen "/a.png"]).
Proof.
  apply (proj2 (proj2
           (NewImageFromFilewWithDefault_as_NewImageFromFile (P := platform)
              (gen "" []) "/a.png" "/tmp/c.png" start))
           (path_error "open" "/a.png" ENOENT) disk);
    [reflexivity|discriminate].
Defined.

Lemma SaveWithDimension_filename_is_a_base_name_witness :
  let res := {| GenerationResult.Filename := "n.png";
                GenerationResult.Path := "/custom/x.jpg";
                GenerationResult.Error := None |} in
  GenerationResult.Filename res <> ""
  /\ (GenerationResult.Filename res = "/"
      \/ has_separator (GenerationResult.Filename res) = false).
Proof.
  intros res.
  apply (SaveWithDimension_filename_is_a_base_name (P := platform) (gen "" [])
           0%nat c_png height_50_override start res
           (snd (SaveWithDimension (gen "" []) (Some 0%nat)
                   (Some height_50_override) start))); reflexivity.
Defined.

Lemma NewImageFromByteArray_image_has_no_path_witness :
  let size := generator_size (gen "" []) in
  let found := loaded (P := platform) "" (Decoded "") size in
  exists (src : pix),
    TestBed_decode [Byte.x78] = Ret (inl src)
    /\ Some 1%nat = Some (length (heap start))
    /\ heap start ++ [found]
       = heap start ++ [loaded (P := platform) "" src size]
    /\ world start = world start /\ trace start = trace start
    /\ (forall d, ImageDimension.Name d = "" ->
          resolved_basefileName (loaded (P := platform) "" src size) d
          = ".")
    /\ (Generator.Name (gen "" []) = "" ->
        Save_basefileName (gen "" []) (loaded (P := platform) "" src size)
        = ".").
Proof.
  intros size found.
  apply (proj1 (NewImageFromByteArray_image_has_no_path (P := platform)
                  (D := TestBed_decoder) (gen "" []) [Byte.x78] start)
           (Some 1%nat)
           (mkState (heap start ++ [found]) (world start) (trace start))).
  reflexivity.
Defined.

Lemma Save_earlier_refuses_pixel_data_witness :
  (Image.ImageData c_png <> None ->
   Save_earlier (gen "" []) (Some 0%nat) start
   = (Ret (GenerationResult.zero, Some ErrInvalidImageData), start))
  /\ (Image.ImageData c_png = None ->
      let destpath :=
        filepath.Join
          [Generator.DestinationPath (gen "" [])
           +:+ Generator.Prefix (gen "" []);
           filepath.Base (Image.Path c_png)] in
      snd (Save_earlier (gen "" []) (Some 0%nat) start)
      = extend start
          (snd (imgconv_Save destpath None
                  (Generator.PreferredFormat (gen "" [])) (world start)))
          [EvSave destpath None (Generator.PreferredFormat (gen "" []))]).
Proof.
  apply (Save_earlier_refuses_pixel_data (P := platform) (gen "" []) 0%nat
           c_png start).
  reflexivity.
Defined.

(** [Generate] of the earlier revision on the test bed: the resizes are
    made, every save is refused, nothing is written. *)
Example Generate_earlier_on_the_test_bed :
  fst (Generate_earlier (gen "" [width_100; height_50_override]) (Some 0%nat)
         start)
  = Ret ([failure "/tmp/c.png" ErrInvalidImageData;
          failure "/tmp/c.png" ErrInvalidImageData], None)
  /\ files (world (snd (Generate_earlier
                          (gen "" [width_100; height_50_override])
                          (Some 0%nat) start))) = [].
Proof. split; reflexivity. Qed.

(** A successful and a refused save on the test bed. *)
Lemma returned_error_means_zero_result_witness :
  (exists (res : GenerationResult) (s' : State),
      SaveWithDimension (gen "" []) (Some 0%nat) (Some width_100) start
      = (Ret (res, None), s')
      /\ GenerationResult.Error res = None
      /\ GenerationResult.Filename res <> "")
  /\ (exists (res : GenerationResult) (e : error) (s' : State),
        Save (gen "" []) (Some 0%nat) blank_start = (Ret (res, Some e), s')
        /\ res = GenerationResult.zero).
Proof.
  split.
  - eexists _, _. split; [reflexivity|].
    apply (proj1 (proj2 (proj2
             (returned_error_means_zero_result (P := platform) (gen "" [])
                (Some 0%nat) width_100 (Some width_100) None "" jpeg start)))
             _ None _ eq_refl).
  - eexists _, _, _. split; [reflexivity|].
    apply (proj1 (proj2
             (returned_error_means_zero_result (P := platform) (gen "" [])
                (Some 0%nat) width_100 None None "" jpeg blank_start))
             _ (Some _) _ eq_refl).
Defined.

(** The encoder of the test bed rejects the format 42 with an error of its
    own. *)
Lemma save_recovers_type_assertion_witness :
  let g := {| Generator.Width := 300; Generator.Height := 300;
              Generator.PreferredFormat := format_42;
              Generator.Name := ""; Generator.DestinationPath := "";
              Generator.Prefix := ""; Generator.OutputFormats := [] |} in
  let e := Foreign "image: unknown format" in
  (imgconv_Save (resolved_fileLocationPath g c_png width_100)
     (Some (Decoded "/tmp/c.png")) format_42 (world start)
   = (Ret (Some e), disk) ->
   SaveWithDimension g (Some 0%nat) (Some width_100) start
   = (Ret (GenerationResult.zero,
           Some (Errorf_panic "recovered from panic: %v"
                   (TypeAssertionError e))),
      extend start disk
        [attempt (resolved_fileLocationPath g c_png width_100)
           (Some (Decoded "/tmp/c.png")) format_42]))
  /\ (imgconv_Save (Save_destpath g c_png) (Some (Decoded "/tmp/c.png"))
        format_42 (world start) = (Ret (Some e), disk) ->
      Save g (Some 0%nat) start
      = (Ret (GenerationResult.zero,
              Some (Errorf_panic "recovered from panic: %v"
                      (TypeAssertionError e))),
         extend start disk
           [attempt (Save_destpath g c_png) (Some (Decoded "/tmp/c.png"))
              format_42])).
Proof.
  intros g e.
  apply (save_recovers_type_assertion (P := platform) g 0%nat c_png
           (Decoded "/tmp/c.png") width_100 start e disk).
  - reflexivity.
  - reflexivity.
  - discriminate.
Defined.

End MoreOnTheTestBed.
